(** * handwriting-client: the digitization job session

    A shallow embedding of [app/lib/api.ts] (the fetch wrapper [apiFetch] and
    its [ApiError]) and of the state logic of [app/routes/home.tsx] (the
    [Home] component: its five state cells, the polling effect, [resetState],
    [handleSubmitUrl] and [handleSubmitFile]).

    TypeScript types are erased at run time, so values that come out of a
    response body are modelled as untyped JavaScript values. *)

From Stdlib Require Import ZArith List Ascii String Bool Lia DecimalString.
Import ListNotations.
Set Warnings "-register-all".
Open Scope string_scope.
Open Scope Z_scope.
Open Scope list_scope.

(* ================================================================== *)
(** ** JavaScript values as the program sees them *)
(* ================================================================== *)

Module Js.

(** A number, as far as the program can tell numbers apart.  The program
    never computes with a number that came out of a response: it tests it
    ([!v], [||], [&&]), prints it ([ToString], rendering) and compares it
    ([Object.is]).  So a number is given by the text JavaScript prints for
    it (["42"], ["0.5"], ["1152921504606847000"], ["1e+21"]), which is
    never empty and differs for different numbers, with one exception:
    negative zero prints as ["0"] too, and is written ["-0"] here. *)
Record numeral : Type := mkNumeral {
  num_first : ascii;
  num_rest : string
}.

Definition numeral_text (n : numeral) : string :=
  String (num_first n) (num_rest n).

(** The values [JSON.parse] can produce, plus [undefined] (the result of
    reading an absent property).  An object is its list of own properties;
    the first binding of a key is the one a read sees. *)
Inductive value : Type :=
| VUndefined
| VNull
| VBool (b : bool)
| VNum (n : numeral)
| VStr (s : string)
| VArr (items : list value)
| VObj (fields : list (string * value)).

(** [ToBoolean]: what [!v], [v || w] and [v && w] test.  The falsy
    numbers are 0, -0 and NaN. *)
Definition truthy (v : value) : bool :=
  match v with
  | VUndefined | VNull => false
  | VBool b => b
  | VNum n => negb ((numeral_text n =? "0")%string
                    || (numeral_text n =? "-0")%string
                    || (numeral_text n =? "NaN")%string)
  | VStr s => negb (s =? "")%string
  | VArr _ | VObj _ => true
  end.

(** [a || b] *)
Definition or_else (a b : value) : value := if truthy a then a else b.

Fixpoint lookup (k : string) (fields : list (string * value)) : option value :=
  match fields with
  | [] => None
  | (k', v) :: rest => if (k =? k')%string then Some v else lookup k rest
  end.

(** [v.k] for the property names the program reads ([message], [data],
    [status], [digitizationId], [recognizedText], [translatedText],
    [failureReason]): [None] is the [TypeError] of reading a property of
    [undefined] or [null]; none of these names is a property of a string,
    number, boolean or array, nor of [Object.prototype]. *)
Definition get (v : value) (k : string) : option value :=
  match v with
  | VUndefined | VNull => None
  | VObj fields =>
      match lookup k fields with
      | Some x => Some x
      | None => Some VUndefined
      end
  | VBool _ | VNum _ | VStr _ | VArr _ => Some VUndefined
  end.

(** [v.k === "lit"] where [v.k] is already known not to throw. *)
Definition is_str (v : value) (lit : string) : bool :=
  match v with
  | VStr s => (s =? lit)%string
  | _ => false
  end.

Definition join_with (sep : string) (parts : list string) : string :=
  match parts with
  | [] => ""
  | p :: rest => fold_left (fun acc q => acc ++ sep ++ q)%string rest p
  end.

(** [ToString], as the [Error] constructor and template literals apply it.
    [None] is the [TypeError] "cannot convert object to primitive value":
    a parsed object with an own [toString] property (never callable in
    JSON) has no usable conversion.  Array elements [null] and
    [undefined] print as the empty string. *)
Fixpoint toString (v : value) : option string :=
  match v with
  | VUndefined => Some "undefined"
  | VNull => Some "null"
  | VBool true => Some "true"
  | VBool false => Some "false"
  | VNum n =>
      Some (if (numeral_text n =? "-0")%string then "0" else numeral_text n)
  | VStr s => Some s
  | VArr items =>
      let fix elems (l : list value) : option (list string) :=
        match l with
        | [] => Some []
        | x :: rest =>
            match (match x with
                   | VUndefined | VNull => Some ""
                   | _ => toString x
                   end), elems rest with
            | Some sx, Some srest => Some (sx :: srest)
            | _, _ => None
            end
        end in
      match elems items with
      | Some parts => Some (join_with "," parts)
      | None => None
      end
  | VObj fields =>
      match lookup "toString" fields with
      | Some _ => None
      | None => Some "[object Object]"
      end
  end.

(** [Object.is] on two values of which the second is not an object or
    array (references are compared by the caller). *)
Definition prim_is (a b : value) : bool :=
  match a, b with
  | VUndefined, VUndefined => true
  | VNull, VNull => true
  | VBool x, VBool y => Bool.eqb x y
  | VNum x, VNum y => (numeral_text x =? numeral_text y)%string
  | VStr x, VStr y => (x =? y)%string
  | _, _ => false
  end.

Definition is_ref (v : value) : bool :=
  match v with
  | VArr _ | VObj _ => true
  | _ => false
  end.

End Js.
Import Js.

(* ================================================================== *)
(** ** app/lib/api.ts *)
(* ================================================================== *)

(** What the three kinds of thrown values are: the wrapper's own
    [ApiError], the [TypeError] of a rejected [fetch] or of a property read
    on [null]/[undefined], and the [SyntaxError] of [response.json()] on a
    body that is not JSON. *)
Inductive Exn : Type :=
| ApiError (message : string) (status : Z) (data : value)
| TypeError
| SyntaxError.

Inductive Outcome (A : Type) : Type :=
| Return (a : A)
| Throw (e : Exn).
Arguments Return {A} a.
Arguments Throw {A} e.

(** What [await fetch(...)] gives: a rejection (network failure), or a
    response with a status code and a body that [response.json()] either
    parses ([Some]) or rejects ([None]). *)
Inductive FetchOutcome : Type :=
| NetworkError
| HttpResponse (status : Z) (body : option value).

(** [response.ok]: the status is in the range 200-299. *)
Definition ok (status : Z) : bool := (200 <=? status) && (status <=? 299).

(** [new ApiError(message, status, data)]: the [Error] constructor converts
    its argument with [ToString], which may itself throw. *)
Definition newApiError (message : value) (status : Z) (data : value) : Exn :=
  match toString message with
  | Some m => ApiError m status data
  | None => TypeError
  end.

(** [apiFetch], from the point where [fetch] settles. *)
Definition apiFetch (o : FetchOutcome) : Outcome value :=
  match o with
  | NetworkError => Throw TypeError
  | HttpResponse status body =>
      match body with
      | None => Throw SyntaxError                       (* await response.json() *)
      | Some data =>
          if negb (ok status) then
            match get data "message" with
            | None => Throw TypeError
            | Some m =>
                Throw (newApiError (or_else m (VStr "An API error occurred"))
                                   status data)
            end
          else
            match get data "data" with
            | None => Throw TypeError
            | Some d => Return d
            end
      end
  end.

Definition is_ApiError (e : Exn) : bool :=
  match e with
  | ApiError _ _ _ => true
  | _ => false
  end.

(* ================================================================== *)
(** ** app/routes/home.tsx: the state cells and their setters *)
(* ================================================================== *)

(** The five [useState] cells of [Home].  [jobId] and [result] hold whatever
    the server sent (their declared types are not checked at run time);
    [error] is [null] or a string. *)
Record Session : Type := mkSession {
  jobId : value;
  result : value;
  isLoading : bool;
  error : option string;
  progress : Z
}.

(** [useState] initial values. *)
Definition initialSession : Session :=
  {| jobId := VNull; result := VNull; isLoading := false;
     error := None; progress := 0 |}.

(** One call of a state setter.  The calls a handler makes between two
    [await]s are batched and committed together, in order. *)
Inductive Action : Type :=
| setJobId (v : value)
| setResult (v : value)
| setIsLoading (b : bool)
| setError (e : option string)
| setProgress (n : Z).

Definition apply_action (s : Session) (a : Action) : Session :=
  match a with
  | setJobId v =>
      {| jobId := v; result := result s; isLoading := isLoading s;
         error := error s; progress := progress s |}
  | setResult v =>
      {| jobId := jobId s; result := v; isLoading := isLoading s;
         error := error s; progress := progress s |}
  | setIsLoading b =>
      {| jobId := jobId s; result := result s; isLoading := b;
         error := error s; progress := progress s |}
  | setError e =>
      {| jobId := jobId s; result := result s; isLoading := isLoading s;
         error := e; progress := progress s |}
  | setProgress n =>
      {| jobId := jobId s; result := result s; isLoading := isLoading s;
         error := error s; progress := n |}
  end.

Definition commit (acts : list Action) (s : Session) : Session :=
  fold_left apply_action acts s.

(** [resetState] *)
Definition resetState : list Action :=
  [ setJobId VNull; setResult VNull; setIsLoading false;
    setError None; setProgress 0 ].

(** The placeholder [{ status: "pending" } as DigitizationResult]. *)
Definition pendingPlaceholder : value := VObj [("status", VStr "pending")].

(** [result && (result.status === "completed" || result.status === "failed")]
    of the polling effect's guard; a truthy value is never [null] or
    [undefined], so the read cannot throw. *)
Definition terminal (v : value) : bool :=
  truthy v &&
  match get v "status" with
  | Some st => is_str st "completed" || is_str st "failed"
  | None => false
  end.

(* ------------------------------------------------------------------ *)
(** *** The interval callback of the polling effect *)

Definition pollFallback : string :=
  "An unknown error occurred while fetching results.".

(** The [catch] block of the callback. *)
Definition poll_catch (e : Exn) : list Action :=
  [ setError (Some (match e with
                    | ApiError m _ _ => m
                    | _ => pollFallback
                    end));
    setIsLoading false;
    setJobId VNull ].

(** The callback from the point where [apiFetch] settles.  [setResult(data)]
    has already been called when reading [data.status] of [undefined] or
    [null] throws into the [catch] block. *)
Definition poll_callback (r : Outcome value) : list Action :=
  match r with
  | Throw e => poll_catch e
  | Return data =>
      setResult data ::
      match get data "status" with
      | None => poll_catch TypeError
      | Some st =>
          (if is_str st "processing" then [setProgress 50] else []) ++
          (if is_str st "completed" || is_str st "failed"
           then [setProgress 100; setJobId VNull; setIsLoading false]
           else [])
      end
  end.

(** The message the poll path shows for a settled [fetch]. *)
Definition poll_displayed_error (o : FetchOutcome) : option string :=
  error (commit (poll_callback (apiFetch o)) initialSession).

(* ------------------------------------------------------------------ *)
(** *** [handleSubmitUrl] *)

Definition urlFallback : string :=
  "An unknown error occurred during URL submission.".

(** Up to the [await]: no check of the input values. *)
Definition handleSubmitUrl_start : list Action :=
  resetState ++ [ setIsLoading true; setProgress 5 ].

Definition submitUrl_catch (e : Exn) : list Action :=
  [ setError (Some (match e with
                    | ApiError m _ _ => m
                    | _ => urlFallback
                    end));
    setIsLoading false ].

(** After the [await]. *)
Definition handleSubmitUrl_resume (o : FetchOutcome) : list Action :=
  match apiFetch o with
  | Throw e => submitUrl_catch e
  | Return data =>
      match get data "digitizationId" with
      | None => submitUrl_catch TypeError
      | Some id => [ setJobId id; setResult pendingPlaceholder ]
      end
  end.

(* ------------------------------------------------------------------ *)
(** *** [handleSubmitFile] *)

Definition fileFallback : string :=
  "An unknown error occurred during file submission.".

(** A selected file, as far as the client looks at it. *)
Record File : Type := mkFile { file_name : string; file_size : Z }.

(** Up to the [await]: the actions, and whether the upload request is
    issued. *)
Definition handleSubmitFile_start (file : option File) : list Action * bool :=
  match file with
  | None => ([ setError (Some "Please select a file to upload.") ], false)
  | Some _ => (resetState ++ [ setIsLoading true; setProgress 5 ], true)
  end.

Definition submitFile_catch (e : Exn) : list Action :=
  [ setError (Some (match e with
                    | ApiError m _ _ => m
                    | _ => fileFallback
                    end));
    setIsLoading false ].

(** After the [await]: this path calls [fetch] itself and repeats the
    wrapper's steps with its own constant. *)
Definition handleSubmitFile_resume (o : FetchOutcome) : list Action :=
  match o with
  | NetworkError => submitFile_catch TypeError
  | HttpResponse status body =>
      match body with
      | None => submitFile_catch SyntaxError
      | Some data =>
          if negb (ok status) then
            match get data "message" with
            | None => submitFile_catch TypeError
            | Some m =>
                submitFile_catch
                  (newApiError (or_else m (VStr "File upload failed"))
                               status data)
            end
          else
            match get data "data" with
            | None => submitFile_catch TypeError
            | Some d =>
                match get d "digitizationId" with
                | None => submitFile_catch TypeError
                | Some id => [ setJobId id; setResult pendingPlaceholder ]
                end
            end
      end
  end.

Definition upload_displayed_error (o : FetchOutcome) : option string :=
  error (commit (handleSubmitFile_resume o) initialSession).

(* ================================================================== *)
(** ** The component as an event-driven system *)
(* ================================================================== *)

(** [v?.k] *)
Definition opt_get (v : value) (k : string) : value :=
  match get v k with
  | Some x => x
  | None => VUndefined
  end.

(** What React accepts as a child: strings and numbers are text,
    booleans, [null] and [undefined] render nothing, an array renders its
    elements; a plain object makes the render throw ("Objects are not valid
    as a React child"). *)
Fixpoint renderable (v : value) : bool :=
  match v with
  | VObj _ => false
  | VArr items =>
      (fix all (l : list value) : bool :=
         match l with
         | [] => true
         | x :: rest => renderable x && all rest
         end) items
  | _ => true
  end.

(** Whether the JSX of [Home] renders with this [result].  The children
    computed from [result] are: [result?.status || ...] after "Status:",
    [result.recognizedText] and [result.translatedText] in their blocks
    (each shown when truthy), and [result.failureReason || "..."] in the
    block shown for status [failed].  The other children ([error],
    [progress], the fixed texts) are strings and numbers. *)
Definition result_renders (v : value) : bool :=
  renderable (or_else (opt_get v "status") (VStr "..."))
  && (negb (truthy (opt_get v "recognizedText"))
      || renderable (opt_get v "recognizedText"))
  && (negb (truthy (opt_get v "translatedText"))
      || renderable (opt_get v "translatedText"))
  && (negb (is_str (opt_get v "status") "failed")
      || renderable (or_else (opt_get v "failureReason")
                             (VStr "An unknown error occurred."))).

(** JavaScript runs one handler segment at a time.  The system state is the
    committed React state, the clock (milliseconds), the interval the
    polling effect currently owns, the requests whose [fetch] has not
    settled yet, and whether [Home] has been unmounted by a render that
    threw.  [sent] records every request ever issued, oldest first. *)

Inductive ReqKind : Type :=
| StatusReq (jid : value)            (* GET digitize/result/${jobId} *)
| UrlSubmitReq (imageUrl targetLanguage : string)   (* POST digitize/url *)
| UploadReq (file : File) (targetLanguage : string). (* POST digitize/upload *)

Record Request : Type := mkRequest {
  rid : nat;
  kind : ReqKind;
  issued : Z
}.

(** The interval created by [setInterval]: the [jobId] its callback closed
    over and the time of its next firing. *)
Record Timer : Type := mkTimer {
  owner : value;
  due : Z
}.

Record Sys : Type := mkSys {
  sess : Session;
  now : Z;
  timer : option Timer;
  inflight : list Request;
  sent : list Request;
  unmounted : bool
}.

Definition period : Z := 3000.

(** The body of the polling effect, run at time [t] on the committed
    state. *)
Definition polling_effect (t : Z) (s : Session) : option Timer :=
  if negb (truthy (jobId s)) || terminal (result s) then None
  else Some {| owner := jobId s; due := t + period |}.

Definition assigns_jobId (a : Action) : bool :=
  match a with setJobId _ => true | _ => false end.

Definition assigns_result (a : Action) : bool :=
  match a with setResult _ => true | _ => false end.

(** The dependency comparison ([Object.is]) of [useEffect].  Every object
    the handlers store is freshly allocated (parsed from a response or
    written as a literal), so a stored object is the same reference as
    before exactly when the batch did not assign the cell. *)
Definition same_dep (assigned : bool) (old new : value) : bool :=
  if is_ref new then negb assigned else prim_is old new.

Definition deps_changed (acts : list Action) (s s' : Session) : bool :=
  negb (same_dep (existsb assigns_jobId acts) (jobId s) (jobId s'))
  || negb (same_dep (existsb assigns_result acts) (result s) (result s')).

(** The render after a batch throws when the batch stored a [result] with
    which the JSX does not render.  What a render throws on is computed
    from [result] alone, and the [result] of a mounted [Home] is one that
    rendered before (this is shown below for every reachable state), so a
    batch that does not store a [result] cannot make the render throw. *)
Definition render_throws (acts : list Action) (s' : Session) : bool :=
  existsb assigns_result acts && negb (result_renders (result s')).

(** Commit a batch, render, and run the effect.

    When the render throws, [Home] is unmounted: the effect's cleanup
    clears the interval, the forms are gone, and the setter calls of
    fetches that settle later do nothing, so the model stops tracking them.
    The cells of an unmounted component no longer exist; the record keeps
    the values just written, with [jobId] cleared, no job being tracked any
    more.

    Otherwise, when [jobId] or [result] changed, the cleanup clears the old
    interval and the effect body runs again.  The effect is taken to run
    together with the commit, before the next event is handled. *)
Definition render (acts : list Action) (y : Sys) : Sys :=
  let s' := commit acts (sess y) in
  if render_throws acts s' then
    {| sess := apply_action s' (setJobId VNull);
       now := now y;
       timer := None;
       inflight := [];
       sent := sent y;
       unmounted := true |}
  else
    {| sess := s';
       now := now y;
       timer := if deps_changed acts (sess y) s'
                then polling_effect (now y) s'
                else timer y;
       inflight := inflight y;
       sent := sent y;
       unmounted := unmounted y |}.

(** Issue a request at the current time. *)
Definition send (k : ReqKind) (y : Sys) : Sys :=
  let r := {| rid := List.length (sent y); kind := k; issued := now y |} in
  {| sess := sess y; now := now y; timer := timer y;
     inflight := inflight y ++ [r];
     sent := sent y ++ [r];
     unmounted := unmounted y |}.

Fixpoint take_request (n : nat) (l : list Request)
  : option (Request * list Request) :=
  match l with
  | [] => None
  | r :: rest =>
      if Nat.eqb (rid r) n then Some (r, rest)
      else match take_request n rest with
           | Some (r', rest') => Some (r', r :: rest')
           | None => None
           end
  end.

Definition settle (rest : list Request) (y : Sys) : Sys :=
  {| sess := sess y; now := now y; timer := timer y;
     inflight := rest; sent := sent y; unmounted := unmounted y |}.

(** The URL field when the user submits the URL form: its value, and the
    browser's verdict on it as a URL ([validity.typeMismatch] of
    [<input type="url">]: the value is not empty and is not an absolute
    URL). *)
Record UrlInput : Type := mkUrlInput {
  url_value : string;
  url_typeMismatch : bool
}.

(** A value the browser accepts as a URL. *)
Definition accepted (s : string) : UrlInput :=
  {| url_value := s; url_typeMismatch := false |}.

(** [<Input type="url" required />]: the browser does not dispatch the
    submit event, so [handleSubmitUrl] does not run, when the field is
    empty or is not a URL. *)
Definition url_blocked (i : UrlInput) : bool :=
  (url_value i =? "")%string || url_typeMismatch i.

Inductive Event : Type :=
| Wait (dt : Z)                                    (* time passes *)
| Fire                                             (* the interval fires *)
| PollResponse (n : nat) (o : FetchOutcome)        (* status fetch settles *)
| SubmitResponse (n : nat) (o : FetchOutcome)      (* submission fetch settles *)
| SubmitUrl (imageUrl : UrlInput) (targetLanguage : string)
                                                   (* URL form submitted *)
| SubmitFile (file : option File) (targetLanguage : string). (* file form submitted *)

(** One event; [None] when it cannot happen in this state.  Time cannot
    pass beyond a due interval without it firing.  The forms exist while
    [Home] is mounted and are disabled while [isLoading] holds
    ([disabled={isLoading}] on every input and button).  Submitting an
    enabled form whose required field is missing (an empty or malformed
    URL, no file: [required], [type="url"]) is stopped by the browser: no
    handler runs and nothing changes.  (An unmounted page has no interval
    and no tracked request, see [render].) *)
Definition step (e : Event) (y : Sys) : option Sys :=
  match e with
  | Wait dt =>
      if (0 <=? dt) &&
         match timer y with
         | Some t => now y + dt <=? due t
         | None => true
         end
      then Some {| sess := sess y; now := now y + dt; timer := timer y;
                   inflight := inflight y; sent := sent y;
                   unmounted := unmounted y |}
      else None
  | Fire =>
      match timer y with
      | Some t =>
          if due t =? now y then
            let y1 := {| sess := sess y; now := now y;
                         timer := Some {| owner := owner t;
                                          due := due t + period |};
                         inflight := inflight y; sent := sent y;
                         unmounted := unmounted y |} in
            match toString (owner t) with     (* `digitize/result/${jobId}` *)
            | Some _ => Some (send (StatusReq (owner t)) y1)
            | None => Some (render (poll_catch TypeError) y1)
            end
          else None
      | None => None
      end
  | PollResponse n o =>
      match take_request n (inflight y) with
      | Some (r, rest) =>
          match kind r with
          | StatusReq _ =>
              Some (render (poll_callback (apiFetch o)) (settle rest y))
          | _ => None
          end
      | None => None
      end
  | SubmitResponse n o =>
      match take_request n (inflight y) with
      | Some (r, rest) =>
          match kind r with
          | UrlSubmitReq _ _ =>
              Some (render (handleSubmitUrl_resume o) (settle rest y))
          | UploadReq _ _ =>
              Some (render (handleSubmitFile_resume o) (settle rest y))
          | StatusReq _ => None
          end
      | None => None
      end
  | SubmitUrl imageUrl targetLanguage =>
      if unmounted y || isLoading (sess y) then None
      else if url_blocked imageUrl then Some y
      else Some (send (UrlSubmitReq (url_value imageUrl) targetLanguage)
                      (render handleSubmitUrl_start y))
  | SubmitFile file targetLanguage =>
      if unmounted y || isLoading (sess y) then None
      else
        match file with
        | None => Some y                  (* <Input type="file" required /> *)
        | Some f =>
            let '(acts, upload) := handleSubmitFile_start file in
            if upload
            then Some (send (UploadReq f targetLanguage) (render acts y))
            else Some (render acts y)
        end
  end.

Fixpoint run (evs : list Event) (y : Sys) : option Sys :=
  match evs with
  | [] => Some y
  | e :: rest =>
      match step e y with
      | Some y' => run rest y'
      | None => None
      end
  end.

(** The component right after mounting: the effect has run on the initial
    state and created no interval. *)
Definition mounted : Sys :=
  {| sess := initialSession; now := 0; timer := None;
     inflight := []; sent := []; unmounted := false |}.

Definition reachable (y : Sys) : Prop := exists evs, run evs mounted = Some y.

(** The states an execution visits, the start included. *)
Fixpoint states (evs : list Event) (y : Sys) : list Sys :=
  y :: match evs with
       | [] => []
       | e :: rest =>
           match step e y with
           | Some y' => states rest y'
           | None => []
           end
       end.

(* ------------------------------------------------------------------ *)
(** *** Vocabulary of the statements *)

Definition is_status (r : Request) : bool :=
  match kind r with
  | StatusReq _ => true
  | _ => false
  end.

(** A state in which every outstanding status request is younger than one
    period: the network answers status requests in under 3000 ms. *)
Definition prompt (y : Sys) : bool :=
  forallb (fun r => negb (is_status r) || (now y <? issued r + period))
          (inflight y).

(** A status response whose payload carries [status] [completed] or
    [failed]. *)
Definition terminal_payload (data : value) : Prop :=
  get data "status" = Some (VStr "completed")
  \/ get data "status" = Some (VStr "failed").

(** The [message] field of a parsed response body, when reading it does
    not throw. *)
Definition message_field (o : FetchOutcome) : option value :=
  match o with
  | HttpResponse _ (Some body) => get body "message"
  | _ => None
  end.

(** The [digitizationId] a submission response hands out, if any:
    [body.data.digitizationId] of a 2xx response. *)
Definition assigned_id (o : FetchOutcome) : option value :=
  match o with
  | HttpResponse status (Some body) =>
      if ok status then
        match get body "data" with
        | Some d => get d "digitizationId"
        | None => None
        end
      else None
  | _ => None
  end.

(** No submission response among the events hands out the id [j]. *)
Definition never_reassigned (j : value) (evs : list Event) : Prop :=
  Forall (fun e => match e with
                   | SubmitResponse _ o => assigned_id o <> Some j
                   | _ => True
                   end) evs.

(** The interval, when there is one, belongs to the active job: it was
    created by the effect for the committed [jobId], which is truthy, while
    [result] is not terminal, and it is not overdue. *)
Definition timer_bound (y : Sys) : Prop :=
  forall t, timer y = Some t ->
    owner t = jobId (sess y)
    /\ truthy (jobId (sess y)) = true
    /\ terminal (result (sess y)) = false
    /\ now y <= due t.

(** The shape of the states of an execution in which status responses are
    prompt: at most one request is outstanding; during a submission there
    is no interval; an outstanding status request was issued by the current
    interval, whose next firing is a full period after it; the forms are
    disabled while an interval exists. *)
Definition calm (y : Sys) : Prop :=
  timer_bound y
  /\ (forall t, timer y = Some t -> isLoading (sess y) = true)
  /\ (inflight y = []
      \/ (exists r, inflight y = [r] /\ is_status r = false
                    /\ timer y = None /\ isLoading (sess y) = true)
      \/ (exists r j t, inflight y = [r] /\ kind r = StatusReq j
                        /\ timer y = Some t /\ owner t = j
                        /\ issued r + period <= due t)).


(** The job id [j] is not being polled: the active id, if there is one, is
    a different one. *)
Definition detached (j : value) (y : Sys) : Prop :=
  timer_bound y
  /\ (truthy (jobId (sess y)) = true -> jobId (sess y) <> j).

(* ------------------------------------------------------------------ *)
(** *** Concrete responses and executions used as examples *)

Definition created (id : string) : FetchOutcome :=
  HttpResponse 200
    (Some (VObj [("data", VObj [("digitizationId", VStr id)])])).

Definition statusOf (s : string) : FetchOutcome :=
  HttpResponse 200 (Some (VObj [("data", VObj [("status", VStr s)])])).

Definition completedHola : value :=
  VObj [("status", VStr "completed");
        ("recognizedText", VStr "Hola");
        ("translatedText", VStr "Hello");
        ("failureReason", VNull)].

Definition completedResponse : FetchOutcome :=
  HttpResponse 200 (Some (VObj [("data", completedHola)])).

Definition badImage : FetchOutcome :=
  HttpResponse 422 (Some (VObj [("message", VStr "bad image")])).

(** Job A is submitted and polled; its first status response takes more
    than a period, so the interval fires a second time while the first
    request is still outstanding. *)
Definition overlap_trace : list Event :=
  [ SubmitUrl (accepted "https://x/a.png") "es"; Wait 100;
    SubmitResponse 0 (created "A");
    Wait 3000; Fire;            (* request 1 for A, at 3100 *)
    Wait 3000; Fire ].          (* request 2 for A, at 6100 *)

(** ... then the first response reports completion, the user submits job
    B, and B becomes the active job while request 2 is outstanding. *)
Definition superseded_trace : list Event :=
  overlap_trace ++
  [ Wait 10; PollResponse 1 completedResponse; Wait 500;
    SubmitUrl (accepted "https://x/b.png") "es"; Wait 100;
    SubmitResponse 3 (created "B"); Wait 50 ].

(** Job A again with two overlapping requests; the later one is answered
    first, with [processing]. *)
Definition reordered_trace : list Event :=
  overlap_trace ++ [ Wait 100; PollResponse 2 (statusOf "processing"); Wait 900 ].


(** The end-to-end run: submission, one [processing] tick, up to the
    arrival of the second response. *)
Definition polling_job123 : list Event :=
  [ Wait 3000; Fire; Wait 200; PollResponse 1 (statusOf "processing");
    Wait 3000; Fire; Wait 100 ].

Definition submitted_job123 : list Event :=
  [ SubmitUrl (accepted "https://x/y.png") "es"; Wait 100;
    SubmitResponse 0 (created "job123") ].

(** The state right after job123's submission succeeded, and the state in
    which its second status response is about to arrive. *)
Definition after_submission : Sys :=
  Eval vm_compute in
    match run submitted_job123 mounted with
    | Some y => y
    | None => mounted
    end.

Definition before_completion : Sys :=
  Eval vm_compute in
    match run polling_job123 after_submission with
    | Some y => y
    | None => mounted
    end.

Definition after_completion : Sys :=
  Eval vm_compute in
    match step (PollResponse 2 completedResponse) before_completion with
    | Some y => y
    | None => mounted
    end.

(** The state job123 is in when its second status response reports
    [processing] once more. *)
Definition still_processing : Sys :=
  Eval vm_compute in
    match step (PollResponse 2 (statusOf "processing")) before_completion with
    | Some y => y
    | None => mounted
    end.

(* ================================================================== *)
(** ** The request [apiFetch] builds, and what [Home] renders *)
(* ================================================================== *)

(** Defining a property on an object: an existing key keeps its place and
    takes the new value, a new key is added.  (Only reads by key are made
    below; the order of the list carries no meaning.) *)
Fixpoint set_prop (k : string) (v : value) (o : list (string * value))
  : list (string * value) :=
  match o with
  | [] => [(k, v)]
  | (k', v') :: rest =>
      if (k =? k')%string then (k, v) :: rest
      else (k', v') :: set_prop k v rest
  end.

Fixpoint indexed_from (i : nat) (xs : list value) : list (string * value) :=
  match xs with
  | [] => []
  | x :: rest =>
      (NilZero.string_of_uint (Nat.to_uint i), x) :: indexed_from (S i) rest
  end.

Fixpoint chars (s : string) : list value :=
  match s with
  | EmptyString => []
  | String c rest => VStr (String c EmptyString) :: chars rest
  end.

(** The own enumerable properties an object spread [...v] copies:
    those of an object, the indices of an array or string, nothing for
    [undefined], [null], numbers and booleans. *)
Definition own_props (v : value) : list (string * value) :=
  match v with
  | VObj fields => fields
  | VArr items => indexed_from 0 items
  | VStr s => indexed_from 0 (chars s)
  | _ => []
  end.

(** [{ ...o, ...src }]: the properties of [src] are defined one after the
    other on top of [o]. *)
Definition spread_into (o src : list (string * value))
  : list (string * value) :=
  fold_left (fun acc kv => set_prop (fst kv) (snd kv) acc) src o.

(** [options.headers] *)
Definition headers_of (options : list (string * value)) : value :=
  match lookup "headers" options with
  | Some h => h
  | None => VUndefined
  end.

(** [{ "Content-Type": "application/json", ...options.headers }] *)
Definition request_headers (options : list (string * value))
  : list (string * value) :=
  spread_into [("Content-Type", VStr "application/json")]
              (own_props (headers_of options)).

(** [{ ...options, headers: { ... } }], the second argument of [fetch]. *)
Definition request_init (options : list (string * value))
  : list (string * value) :=
  set_prop "headers" (VObj (request_headers options))
           (spread_into [] options).

(** [error] used as a condition: [null] and the empty string are falsy. *)
Definition error_truthy (e : option string) : bool :=
  match e with
  | Some m => negb (m =? "")%string
  | None => false
  end.

(** What the result section of the page shows, when it is rendered: the
    red error line, the value put after "Status:", the value of the
    progress bar, and the three optional blocks with the expression each
    one displays. *)
Record ResultCard : Type := mkResultCard {
  errorLine : option string;
  statusText : value;
  progressValue : Z;
  recognizedBlock : option value;
  translatedBlock : option value;
  failureBlock : option value
}.

(** The result section of the JSX: rendered when
    [result || isLoading || error]; there is none when the render
    throws. *)
Definition resultCard (s : Session) : option ResultCard :=
  if result_renders (result s)
     && (truthy (result s) || isLoading s || error_truthy (error s)) then
    Some {| errorLine := if error_truthy (error s) then error s else None;
            statusText :=
              or_else (opt_get (result s) "status")
                      (VStr (if isLoading s then "submitting..." else "..."));
            progressValue := progress s;
            recognizedBlock :=
              if truthy (opt_get (result s) "recognizedText")
              then Some (opt_get (result s) "recognizedText") else None;
            translatedBlock :=
              if truthy (opt_get (result s) "translatedText")
              then Some (opt_get (result s) "translatedText") else None;
            failureBlock :=
              if is_str (opt_get (result s) "status") "failed"
              then Some (or_else (opt_get (result s) "failureReason")
                                 (VStr "An unknown error occurred."))
              else None |}
  else None.


(** Progress as the page can show it: 0 until the first request is sent,
    one of 5, 50, 100 ever after. *)
Definition progress_shape (y : Sys) : Prop :=
  (sent y = [] /\ progress (sess y) = 0)
  \/ (sent y <> []
      /\ (progress (sess y) = 5 \/ progress (sess y) = 50
          \/ progress (sess y) = 100)).

(** The events by which the user starts a submission that goes to the
    network. *)
Definition starts_submission (e : Event) : bool :=
  match e with
  | SubmitUrl imageUrl _ => negb (url_blocked imageUrl)
  | SubmitFile (Some _) _ => true
  | _ => false
  end.

(** A submission under way, the 2xx answer [{data: {}}] that carries no
    job id, and the state that answer leaves. *)
Definition submitting_example : Sys :=
  Eval vm_compute in
    match run [SubmitUrl (accepted "https://x/y.png") "es"; Wait 100] mounted with
    | Some y => y
    | None => mounted
    end.

Definition created_without_id : FetchOutcome :=
  HttpResponse 200 (Some (VObj [("data", VObj [])])).

Definition frozen_example : Sys :=
  Eval vm_compute in
    match step (SubmitResponse 0 created_without_id) submitting_example with
    | Some y => y
    | None => mounted
    end.

(* ================================================================== *)
(** ** Facts about values *)
(* ================================================================== *)

Lemma prim_is_eq (a b : value) : prim_is a b = true -> a = b.
Proof.
  destruct a, b; simpl; try discriminate; intros H; try reflexivity.
  - apply Bool.eqb_prop in H. now subst.
  - destruct n as [c r], n0 as [c' r']. simpl in H.
    destruct (Ascii.eqb_spec c c') as [->|]; [|discriminate].
    apply String.eqb_eq in H. now subst.
  - apply String.eqb_eq in H. now subst.
Qed.

Lemma prim_is_refl (a : value) : is_ref a = false -> prim_is a a = true.
Proof.
  destruct a; simpl; try discriminate; intros _; try reflexivity.
  - apply Bool.eqb_reflx.
  - exact (String.eqb_refl (numeral_text n)).
  - apply String.eqb_refl.
Qed.

Lemma get_string_is_object (v : value) (k s : string) :
  get v k = Some (VStr s) -> exists fields, v = VObj fields.
Proof.
  destruct v; simpl; try discriminate; eauto.
Qed.

Lemma numeral_nonempty (n : numeral) :
  (if (numeral_text n =? "-0")%string then "0" else numeral_text n) <> "".
Proof.
  destruct (numeral_text n =? "-0")%string; discriminate.
Qed.

(** A truthy value that is not an array never prints as the empty
    string. *)
Lemma toString_truthy_nonempty (v : value) (s : string) :
  truthy v = true -> (forall items, v <> VArr items) ->
  toString v = Some s -> s <> "".
Proof.
  intros Ht Harr Hs. destruct v; simpl in *; try discriminate.
  - destruct b; [|discriminate]. injection Hs as <-. discriminate.
  - injection Hs as <-. apply numeral_nonempty.
  - injection Hs as <-. intros ->. discriminate.
  - exfalso. now apply (Harr items).
  - destruct (lookup "toString" fields); [discriminate|].
    injection Hs as <-. discriminate.
Qed.

(* ================================================================== *)
(** ** The fetch wrapper and the displayed error *)
(* ================================================================== *)

(** C10: a response whose body is not valid JSON makes [apiFetch] throw the
    parser's error, which is not an [ApiError], whatever the HTTP status
    is -- in particular for status 200, because the body is parsed before
    [response.ok] is looked at. *)
Theorem apiFetch_non_json_body_throws :
  (forall status,
      apiFetch (HttpResponse status None) = Throw SyntaxError
      /\ is_ApiError SyntaxError = false)
  /\ ok 200 = true
  /\ apiFetch (HttpResponse 200 None) = Throw SyntaxError.
Proof.
  repeat split.
Qed.

(** C9: for a non-2xx response whose body is a JSON object without a
    [message] field, the displayed error is the wrapper's own constant
    ("An API error occurred"; "File upload failed" on the file path), which
    differs from the context fallback; each [catch] block shows an
    [ApiError]'s own message and uses its context fallback exactly for the
    other thrown values. *)
Theorem wrapper_constant_without_message :
  forall status fields,
    ok status = false ->
    lookup "message" fields = None ->
    let o := HttpResponse status (Some (VObj fields)) in
    (poll_displayed_error o = Some "An API error occurred"
     /\ poll_displayed_error o <> Some pollFallback)
    /\ (error (commit (handleSubmitUrl_resume o) initialSession)
          = Some "An API error occurred")
    /\ (upload_displayed_error o = Some "File upload failed"
        /\ upload_displayed_error o <> Some fileFallback)
    /\ (forall e s,
          error (commit (poll_catch e) s)
          = Some (match e with ApiError m _ _ => m | _ => pollFallback end))
    /\ (forall e s,
          error (commit (submitUrl_catch e) s)
          = Some (match e with ApiError m _ _ => m | _ => urlFallback end))
    /\ (forall e s,
          error (commit (submitFile_catch e) s)
          = Some (match e with ApiError m _ _ => m | _ => fileFallback end)).
Proof.
  intros status fields Hok Hmsg o. subst o.
  unfold poll_displayed_error, upload_displayed_error, handleSubmitUrl_resume,
    handleSubmitFile_resume, apiFetch.
  rewrite Hok. simpl. rewrite Hmsg. simpl.
  repeat split; try discriminate.
Qed.

(** A 500 response with body [{code: 7}]. *)
Lemma wrapper_constant_without_message_witness :
  poll_displayed_error (HttpResponse 500 (Some (VObj [("code", VNum (mkNumeral "7" ""))])))
  = Some "An API error occurred".
Proof.
  exact (proj1 (proj1 (wrapper_constant_without_message
                         500 [("code", VNum (mkNumeral "7" ""))] eq_refl eq_refl))).
Defined.

(** C6, as stated, fails: a non-2xx response whose body has the [message]
    field [""] does not show that message verbatim; the wrapper's constant
    is shown instead. *)
Lemma empty_message_not_verbatim :
  let fields := [("message", VStr "")] in
  ok 400 = false
  /\ lookup "message" fields = Some (VStr "")
  /\ poll_displayed_error (HttpResponse 400 (Some (VObj fields)))
     = Some "An API error occurred"
  /\ poll_displayed_error (HttpResponse 400 (Some (VObj fields))) <> Some "".
Proof.
  cbv zeta. repeat split. discriminate.
Qed.

(** C6, amended: on a failed poll, a non-2xx response whose body is a JSON
    object with a non-empty string [message] shows exactly that message
    (["bad image"] for [{message:"bad image"}]); a non-2xx response whose
    body is any JSON value other than [null] with a falsy or absent
    [message] (the empty string, [null], [false], [0], or no such field)
    shows the wrapper's constant "An API error occurred"; a rejected
    [fetch], a body that is not JSON or the body [null] shows the fixed
    poll fallback; and whenever the [message] field is not an array, a
    displayed error is never the empty string. *)
Theorem poll_error_message :
  (forall status fields m,
      ok status = false ->
      lookup "message" fields = Some (VStr m) ->
      m <> "" ->
      poll_displayed_error (HttpResponse status (Some (VObj fields))) = Some m)
  /\ poll_displayed_error badImage = Some "bad image"
  /\ (forall status body mv,
        ok status = false ->
        get body "message" = Some mv ->
        truthy mv = false ->
        poll_displayed_error (HttpResponse status (Some body))
        = Some "An API error occurred")
  /\ (forall status fields,
        ok status = false ->
        lookup "message" fields = None ->
        poll_displayed_error (HttpResponse status (Some (VObj fields)))
        = Some "An API error occurred")
  /\ poll_displayed_error NetworkError = Some pollFallback
  /\ (forall status,
        poll_displayed_error (HttpResponse status None) = Some pollFallback)
  /\ (forall status,
        poll_displayed_error (HttpResponse status (Some VNull))
        = Some pollFallback)
  /\ (forall o msg,
        (forall items, message_field o <> Some (VArr items)) ->
        poll_displayed_error o = Some msg ->
        msg <> "").
Proof.
  split; [|split; [|split; [|split; [|split; [|split; [|split]]]]]];
    try reflexivity.
  - intros status fields m Hok Hm Hne.
    unfold poll_displayed_error, apiFetch. rewrite Hok. simpl. rewrite Hm.
    unfold or_else. simpl.
    destruct (String.eqb_spec m "") as [->|_]; [contradiction|reflexivity].
  - intros status body mv Hok Hm Hf.
    unfold poll_displayed_error, apiFetch. rewrite Hok. cbn [negb].
    rewrite Hm. unfold or_else. rewrite Hf. reflexivity.
  - intros status fields Hok Hm.
    unfold poll_displayed_error, apiFetch. rewrite Hok. simpl. rewrite Hm.
    reflexivity.
  - intros status. unfold poll_displayed_error, apiFetch.
    destruct (ok status); reflexivity.
  - intros o msg Harr. unfold poll_displayed_error.
    destruct o as [|status [data|]]; simpl;
      try (intros H; injection H as <-; discriminate).
    destruct (ok status); simpl.
    + destruct (get data "data") as [d|]; simpl;
        [|intros H; injection H as <-; discriminate].
      destruct (get d "status") as [st|]; simpl;
        [|intros H; injection H as <-; discriminate].
      destruct (is_str st "processing"),
        (is_str st "completed" || is_str st "failed"); simpl; discriminate.
    + simpl in Harr.
      destruct (get data "message") as [m|]; simpl;
        [|intros H; injection H as <-; discriminate].
      unfold newApiError, or_else.
      destruct (truthy m) eqn:Ht.
      * destruct (toString m) as [sm|] eqn:Hs; simpl;
          intros H; injection H as <-; [|discriminate].
        apply (toString_truthy_nonempty m sm Ht); [|exact Hs].
        intros items ->. now apply (Harr items).
      * simpl. intros H; injection H as <-; discriminate.
Qed.

(** A 404 response whose body carries the message [no such job]. *)
Lemma poll_error_message_witness :
  poll_displayed_error
    (HttpResponse 404 (Some (VObj [("message", VStr "no such job")])))
  = Some "no such job".
Proof.
  apply (proj1 poll_error_message 404 [("message", VStr "no such job")]
               "no such job").
  - reflexivity.
  - reflexivity.
  - discriminate.
Defined.

(* ================================================================== *)
(** ** Committing a batch and re-running the effect *)
(* ================================================================== *)

Lemma jobId_commit_unassigned (acts : list Action) (s : Session) :
  existsb assigns_jobId acts = false -> jobId (commit acts s) = jobId s.
Proof.
  unfold commit. revert s.
  induction acts as [|a acts IH]; intros s H; simpl in *; [reflexivity|].
  apply orb_false_iff in H as [Ha Hacts].
  rewrite (IH _ Hacts). destruct a; simpl in *; congruence.
Qed.

Lemma result_commit_unassigned (acts : list Action) (s : Session) :
  existsb assigns_result acts = false -> result (commit acts s) = result s.
Proof.
  unfold commit. revert s.
  induction acts as [|a acts IH]; intros s H; simpl in *; [reflexivity|].
  apply orb_false_iff in H as [Ha Hacts].
  rewrite (IH _ Hacts). destruct a; simpl in *; congruence.
Qed.

Lemma same_dep_unassigned (v : value) : same_dep false v v = true.
Proof.
  unfold same_dep. destruct (is_ref v) eqn:E; [reflexivity|].
  now apply prim_is_refl.
Qed.

(** When the dependency comparison finds no change, the two cells hold
    what they held. *)
Lemma deps_unchanged (acts : list Action) (s : Session) :
  deps_changed acts s (commit acts s) = false ->
  jobId (commit acts s) = jobId s /\ result (commit acts s) = result s.
Proof.
  unfold deps_changed, same_dep. intros H.
  apply orb_false_iff in H as [Hj Hr].
  apply negb_false_iff in Hj, Hr. split.
  - destruct (is_ref (jobId (commit acts s))).
    + apply negb_true_iff in Hj. now apply jobId_commit_unassigned.
    + symmetry. now apply prim_is_eq.
  - destruct (is_ref (result (commit acts s))).
    + apply negb_true_iff in Hr. now apply result_commit_unassigned.
    + symmetry. now apply prim_is_eq.
Qed.

Lemma deps_changed_untouched (acts : list Action) (s : Session) :
  existsb assigns_jobId acts = false ->
  existsb assigns_result acts = false ->
  deps_changed acts s (commit acts s) = false.
Proof.
  intros Hj Hr. unfold deps_changed.
  rewrite Hj, Hr, (jobId_commit_unassigned _ _ Hj),
    (result_commit_unassigned _ _ Hr), !same_dep_unassigned.
  reflexivity.
Qed.

Lemma polling_effect_some (t : Z) (s : Session) (tm : Timer) :
  polling_effect t s = Some tm ->
  owner tm = jobId s /\ truthy (jobId s) = true
  /\ terminal (result s) = false /\ due tm = t + period.
Proof.
  unfold polling_effect.
  destruct (truthy (jobId s)); simpl; [|discriminate].
  destruct (terminal (result s)); [discriminate|].
  intros H. injection H as <-. simpl. auto.
Qed.

Lemma period_pos : 0 < period.
Proof. reflexivity. Qed.

(** The interval a render leaves is the old one, with [jobId] and [result]
    untouched, or the one the effect has just created. *)
(** A render that does not throw. *)
Lemma render_ok (acts : list Action) (y : Sys) :
  render_throws acts (commit acts (sess y)) = false ->
  render acts y
  = {| sess := commit acts (sess y);
       now := now y;
       timer := if deps_changed acts (sess y) (commit acts (sess y))
                then polling_effect (now y) (commit acts (sess y))
                else timer y;
       inflight := inflight y;
       sent := sent y;
       unmounted := unmounted y |}.
Proof.
  intros H. unfold render. cbv zeta. now rewrite H.
Qed.

(** A render that throws. *)
Lemma render_crash (acts : list Action) (y : Sys) :
  render_throws acts (commit acts (sess y)) = true ->
  render acts y
  = {| sess := apply_action (commit acts (sess y)) (setJobId VNull);
       now := now y;
       timer := None;
       inflight := [];
       sent := sent y;
       unmounted := true |}.
Proof.
  intros H. unfold render. cbv zeta. now rewrite H.
Qed.

Lemma render_quiet (acts : list Action) (s' : Session) :
  existsb assigns_result acts = false -> render_throws acts s' = false.
Proof.
  unfold render_throws. now intros ->.
Qed.

Lemma render_renders (acts : list Action) (s' : Session) :
  result_renders (result s') = true -> render_throws acts s' = false.
Proof.
  unfold render_throws. intros ->. apply andb_false_r.
Qed.

(** Whether or not the render throws, the record holds what the batch
    wrote, except that [jobId] may have been cleared. *)
Lemma render_cells (acts : list Action) (y : Sys) :
  result (sess (render acts y)) = result (commit acts (sess y))
  /\ isLoading (sess (render acts y)) = isLoading (commit acts (sess y))
  /\ error (sess (render acts y)) = error (commit acts (sess y))
  /\ progress (sess (render acts y)) = progress (commit acts (sess y))
  /\ now (render acts y) = now y
  /\ sent (render acts y) = sent y.
Proof.
  unfold render. cbv zeta.
  destruct (render_throws acts (commit acts (sess y))); repeat split.
Qed.

Lemma render_now (acts : list Action) (y : Sys) :
  now (render acts y) = now y.
Proof. apply render_cells. Qed.

Lemma render_sent (acts : list Action) (y : Sys) :
  sent (render acts y) = sent y.
Proof. apply render_cells. Qed.

Lemma render_result (acts : list Action) (y : Sys) :
  result (sess (render acts y)) = result (commit acts (sess y)).
Proof. apply render_cells. Qed.

Lemma render_isLoading (acts : list Action) (y : Sys) :
  isLoading (sess (render acts y)) = isLoading (commit acts (sess y)).
Proof. apply render_cells. Qed.

Lemma render_error (acts : list Action) (y : Sys) :
  error (sess (render acts y)) = error (commit acts (sess y)).
Proof. apply render_cells. Qed.

Lemma render_progress (acts : list Action) (y : Sys) :
  progress (sess (render acts y)) = progress (commit acts (sess y)).
Proof. apply render_cells. Qed.

Lemma render_jobId (acts : list Action) (y : Sys) :
  jobId (sess (render acts y)) = jobId (commit acts (sess y))
  \/ jobId (sess (render acts y)) = VNull.
Proof.
  unfold render. cbv zeta.
  destruct (render_throws acts (commit acts (sess y))); [right|left];
    reflexivity.
Qed.

Lemma render_jobId_null (acts : list Action) (y : Sys) :
  jobId (commit acts (sess y)) = VNull ->
  jobId (sess (render acts y)) = VNull.
Proof.
  intros H. destruct (render_jobId acts y) as [E|E]; congruence.
Qed.

Lemma render_sess_null (acts : list Action) (y : Sys) :
  jobId (commit acts (sess y)) = VNull ->
  sess (render acts y) = commit acts (sess y).
Proof.
  intros H. unfold render. cbv zeta.
  destruct (render_throws acts (commit acts (sess y))); [|reflexivity].
  cbn [sess]. destruct (commit acts (sess y)); simpl in *. now subst.
Qed.

Lemma render_inflight (acts : list Action) (y : Sys) :
  inflight (render acts y) = inflight y \/ inflight (render acts y) = [].
Proof.
  unfold render. cbv zeta.
  destruct (render_throws acts (commit acts (sess y))); [right|left];
    reflexivity.
Qed.

Lemma render_inflight_nil (acts : list Action) (y : Sys) :
  inflight y = [] -> inflight (render acts y) = [].
Proof.
  intros H. destruct (render_inflight acts y) as [E|E]; congruence.
Qed.

Lemma render_timer (acts : list Action) (y : Sys) :
  (timer (render acts y) = timer y
   /\ jobId (sess (render acts y)) = jobId (sess y)
   /\ result (sess (render acts y)) = result (sess y))
  \/ timer (render acts y) = polling_effect (now y) (sess (render acts y)).
Proof.
  destruct (render_throws acts (commit acts (sess y))) eqn:Hthrow.
  - right. rewrite (render_crash acts y Hthrow). reflexivity.
  - rewrite (render_ok acts y Hthrow). simpl.
    destruct (deps_changed acts (sess y) (commit acts (sess y))) eqn:E.
    + now right.
    + left. apply deps_unchanged in E. tauto.
Qed.

Lemma render_timer_bound (acts : list Action) (y : Sys) :
  timer_bound y -> timer_bound (render acts y).
Proof.
  intros Hb t Ht. rewrite render_now.
  destruct (render_timer acts y) as [(Hsame & Hj & Hr) | Heff].
  - rewrite Hsame in Ht. rewrite Hj, Hr. exact (Hb t Ht).
  - rewrite Heff in Ht. apply polling_effect_some in Ht.
    destruct Ht as (Ho & Htr & Hte & Hd).
    repeat split; try assumption.
    pose proof period_pos. lia.
Qed.

Lemma render_no_timer (acts : list Action) (y : Sys) :
  timer_bound y ->
  truthy (jobId (sess (render acts y))) = false ->
  timer (render acts y) = None.
Proof.
  intros Hb Hf.
  destruct (timer (render acts y)) as [t|] eqn:Ht; [|reflexivity].
  destruct (render_timer_bound acts y Hb t Ht) as (_ & Htr & _).
  congruence.
Qed.

(** Every step keeps the interval bound to the active job. *)
Lemma step_timer_bound (e : Event) (y y' : Sys) :
  timer_bound y -> step e y = Some y' -> timer_bound y'.
Proof.
  intros Hb Hs. destruct e; simpl in Hs.
  - (* Wait *)
    destruct (0 <=? dt) eqn:Hdt; simpl in Hs; [|discriminate].
    destruct (timer y) as [t|] eqn:Ht.
    + destruct (now y + dt <=? due t) eqn:Hle; [|discriminate].
      injection Hs as <-. intros t' Ht'. simpl in *.
      injection Ht' as <-.
      destruct (Hb t Ht) as (Ho & Htr & Hte & _).
      repeat split; try assumption. lia.
    + injection Hs as <-. intros t' Ht'. simpl in Ht'. discriminate.
  - (* Fire *)
    destruct (timer y) as [t|] eqn:Ht; [|discriminate].
    destruct (due t =? now y) eqn:Hdue; [|discriminate].
    apply Z.eqb_eq in Hdue.
    destruct (Hb t Ht) as (Ho & Htr & Hte & _).
    assert (Hb1 : timer_bound
                    {| sess := sess y; now := now y;
                       timer := Some {| owner := owner t;
                                        due := due t + period |};
                       inflight := inflight y; sent := sent y;
                       unmounted := unmounted y |}).
    { intros t' Ht'. simpl in *. injection Ht' as <-. simpl.
      pose proof period_pos. repeat split; try assumption. lia. }
    destruct (toString (owner t)).
    + injection Hs as <-. exact Hb1.
    + injection Hs as <-. now apply render_timer_bound.
  - (* PollResponse *)
    destruct (take_request n (inflight y)) as [[r rest]|]; [|discriminate].
    destruct (kind r); try discriminate.
    injection Hs as <-. now apply render_timer_bound.
  - (* SubmitResponse *)
    destruct (take_request n (inflight y)) as [[r rest]|]; [|discriminate].
    destruct (kind r); try discriminate;
      injection Hs as <-; now apply render_timer_bound.
  - (* SubmitUrl *)
    destruct (unmounted y || isLoading (sess y)); [discriminate|].
    destruct (url_blocked imageUrl); injection Hs as <-; [exact Hb|].
    apply (render_timer_bound handleSubmitUrl_start) in Hb. exact Hb.
  - (* SubmitFile *)
    destruct (unmounted y || isLoading (sess y)); [discriminate|].
    destruct file as [f|]; simpl in Hs; injection Hs as <-; [|exact Hb].
    apply (render_timer_bound (resetState ++ [setIsLoading true; setProgress 5]))
      in Hb. exact Hb.
Qed.

Lemma run_timer_bound (evs : list Event) (y y' : Sys) :
  timer_bound y -> run evs y = Some y' -> timer_bound y'.
Proof.
  revert y. induction evs as [|e evs IH]; intros y Hb Hr; simpl in Hr.
  - now injection Hr as <-.
  - destruct (step e y) as [y1|] eqn:Hs; [|discriminate].
    eapply IH; [|exact Hr]. eapply step_timer_bound; eauto.
Qed.

Lemma mounted_timer_bound : timer_bound mounted.
Proof. intros t Ht. discriminate. Qed.

Lemma reachable_timer_bound (y : Sys) : reachable y -> timer_bound y.
Proof.
  intros [evs Hr]. eapply run_timer_bound; [apply mounted_timer_bound|eauto].
Qed.

(* ================================================================== *)
(** ** Progress per status *)
(* ================================================================== *)

(** C7, as stated, fails: a tick that observes [pending] does not always
    yield progress 5.  With two overlapping requests for job A, the later
    one is answered first ([processing], progress 50); when the earlier
    one's answer [pending] arrives, progress stays 50. *)
Lemma pending_tick_with_progress_50 :
  exists y y',
    run reordered_trace mounted = Some y
    /\ progress (sess y) = 50
    /\ step (PollResponse 1 (statusOf "pending")) y = Some y'
    /\ result (sess y') = VObj [("status", VStr "pending")]
    /\ progress (sess y') = 50
    /\ progress (sess y') <> 5.
Proof.
  eexists. eexists.
  split; [vm_compute; reflexivity|].
  split; [reflexivity|].
  split; [vm_compute; reflexivity|].
  repeat split. discriminate.
Qed.

(** C7, amended: a tick that observes [processing] sets progress to 50, one
    that observes [completed] or [failed] sets it to 100, and one that
    observes [pending] leaves progress at its previous value; the value 5
    is the one both submission handlers set when a submission starts, so a
    [pending] tick yields 5 exactly when progress still had that value. *)
Theorem tick_progress_by_status :
  forall (data : value) (s : Session),
    (get data "status" = Some (VStr "processing") ->
     progress (commit (poll_callback (Return data)) s) = 50)
    /\ (get data "status" = Some (VStr "completed") ->
        progress (commit (poll_callback (Return data)) s) = 100)
    /\ (get data "status" = Some (VStr "failed") ->
        progress (commit (poll_callback (Return data)) s) = 100)
    /\ (get data "status" = Some (VStr "pending") ->
        progress (commit (poll_callback (Return data)) s) = progress s)
    /\ progress (commit handleSubmitUrl_start s) = 5
    /\ (forall f, progress (commit (fst (handleSubmitFile_start (Some f))) s) = 5).
Proof.
  intros data s.
  repeat split; try (intros H; unfold poll_callback; rewrite H; reflexivity).
Qed.

(** The first [pending] tick after a URL submission. *)
Lemma tick_progress_by_status_witness :
  progress (commit (poll_callback (Return pendingPlaceholder))
                   (commit handleSubmitUrl_start initialSession)) = 5.
Proof.
  rewrite (proj1 (proj2 (proj2 (proj2
            (tick_progress_by_status pendingPlaceholder
               (commit handleSubmitUrl_start initialSession))))) eq_refl).
  reflexivity.
Defined.

(* ================================================================== *)
(** ** Missing input *)
(* ================================================================== *)

(** What one step adds to the record of requests sent: nothing, or one
    request -- a status request, or the submission of an accepted,
    non-empty URL, or the upload of a selected file. *)
Lemma step_sent (e : Event) (y y' : Sys) :
  step e y = Some y' ->
  sent y' = sent y
  \/ exists r,
      sent y' = sent y ++ [r]
      /\ ((exists t, e = Fire /\ timer y = Some t
                     /\ kind r = StatusReq (owner t))
          \/ (exists i l, e = SubmitUrl i l /\ url_blocked i = false
                          /\ kind r = UrlSubmitReq (url_value i) l)
          \/ (exists f l, e = SubmitFile (Some f) l
                          /\ kind r = UploadReq f l)).
Proof.
  intros Hs. destruct e; simpl in Hs.
  - destruct ((0 <=? dt) && _); [|discriminate].
    injection Hs as <-. now left.
  - destruct (timer y) as [t|]; [|discriminate].
    destruct (due t =? now y); [|discriminate].
    destruct (toString (owner t)); injection Hs as <-.
    + right. eexists. split; [reflexivity|]. left. exists t. auto.
    + left. now rewrite render_sent.
  - destruct (take_request n (inflight y)) as [[r rest]|]; [|discriminate].
    destruct (kind r); try discriminate.
    injection Hs as <-. left. now rewrite render_sent.
  - destruct (take_request n (inflight y)) as [[r rest]|]; [|discriminate].
    destruct (kind r); try discriminate; injection Hs as <-; left;
      now rewrite render_sent.
  - destruct (unmounted y || isLoading (sess y)); [discriminate|].
    destruct (url_blocked imageUrl) eqn:Hb; injection Hs as <-; [now left|].
    right. eexists.
    split; [unfold send; cbn [sent]; rewrite render_sent; reflexivity|].
    right. left. exists imageUrl, targetLanguage. auto.
  - destruct (unmounted y || isLoading (sess y)); [discriminate|].
    destruct file as [f|]; simpl in Hs; injection Hs as <-; [|now left].
    right. eexists.
    split; [unfold send; cbn [sent]; rewrite render_sent; reflexivity|].
    right. right. exists f, targetLanguage. auto.
Qed.



(* ================================================================== *)
(** ** What each handler does to [jobId], [isLoading] and [progress] *)
(* ================================================================== *)

Lemma terminal_flag_payload (data st : value) :
  get data "status" = Some st ->
  is_str st "completed" || is_str st "failed" = true ->
  terminal_payload data.
Proof.
  intros Hg H. unfold terminal_payload.
  destruct st; simpl in H; try discriminate.
  apply orb_true_iff in H as [H|H]; apply String.eqb_eq in H; subst; auto.
Qed.

Lemma terminal_payload_flag (data : value) :
  terminal_payload data ->
  exists st, get data "status" = Some st
             /\ is_str st "processing" = false
             /\ is_str st "completed" || is_str st "failed" = true.
Proof.
  intros [H|H]; rewrite H; eexists; repeat split.
Qed.

(** The callback leaves the session untouched in [jobId], [isLoading] and
    [progress], or sets progress to 50 only, or ends the job: [jobId]
    [null], [isLoading] false, and progress 100 exactly for a terminal
    payload. *)
Lemma poll_callback_result (data : value) (s : Session) :
  result (commit (poll_callback (Return data)) s) = data.
Proof.
  unfold poll_callback, commit. simpl.
  destruct (get data "status") as [st|]; simpl; [|reflexivity].
  destruct (is_str st "processing"),
    (is_str st "completed" || is_str st "failed"); reflexivity.
Qed.

Lemma poll_callback_effect (r : Outcome value) (s : Session) :
  let s' := commit (poll_callback r) s in
  (jobId s' = jobId s /\ isLoading s' = isLoading s
   /\ (progress s' = progress s \/ progress s' = 50))
  \/ (jobId s' = VNull /\ isLoading s' = false
      /\ (progress s' = progress s
          \/ (progress s' = 100
              /\ exists data, r = Return data /\ terminal_payload data))).
Proof.
  destruct r as [data|e]; simpl; [|right; auto].
  unfold commit. simpl.
  destruct (get data "status") as [st|] eqn:Hst; simpl; [|right; auto].
  destruct (is_str st "processing");
    destruct (is_str st "completed" || is_str st "failed") eqn:Ht; simpl;
    try (left; now auto);
    right; repeat split; right; split; try reflexivity;
    exists data; split; try reflexivity;
    eapply terminal_flag_payload; eauto.
Qed.

Lemma submitUrl_resume_effect (o : FetchOutcome) (s : Session) :
  let acts := handleSubmitUrl_resume o in
  (existsb assigns_jobId acts = false /\ existsb assigns_result acts = false)
  \/ (assigned_id o = Some (jobId (commit acts s))
      /\ isLoading (commit acts s) = isLoading s).
Proof.
  unfold handleSubmitUrl_resume, apiFetch, assigned_id.
  destruct o as [|status [data|]]; simpl; auto.
  destruct (ok status); simpl.
  - destruct (get data "data") as [d|]; simpl; auto.
    destruct (get d "digitizationId") as [id|]; simpl; auto.
  - destruct (get data "message") as [m|]; simpl; auto.
Qed.

Lemma submitFile_resume_effect (o : FetchOutcome) (s : Session) :
  let acts := handleSubmitFile_resume o in
  (existsb assigns_jobId acts = false /\ existsb assigns_result acts = false)
  \/ (assigned_id o = Some (jobId (commit acts s))
      /\ isLoading (commit acts s) = isLoading s).
Proof.
  unfold handleSubmitFile_resume, assigned_id.
  destruct o as [|status [data|]]; simpl; auto.
  destruct (ok status); simpl.
  - destruct (get data "data") as [d|]; simpl; auto.
    destruct (get d "digitizationId") as [id|]; simpl; auto.
  - destruct (get data "message") as [m|]; simpl; auto.
Qed.

Lemma render_untouched (acts : list Action) (y : Sys) :
  existsb assigns_jobId acts = false ->
  existsb assigns_result acts = false ->
  timer (render acts y) = timer y
  /\ jobId (sess (render acts y)) = jobId (sess y).
Proof.
  intros Hj Hr. rewrite (render_ok acts y (render_quiet acts _ Hr)). simpl.
  rewrite deps_changed_untouched by assumption.
  split; [reflexivity|now apply jobId_commit_unassigned].
Qed.

(* ================================================================== *)
(** ** A job that is no longer polled stays unpolled *)
(* ================================================================== *)

Lemma detached_render (j : value) (acts : list Action) (y : Sys) :
  detached j y ->
  (jobId (commit acts (sess y)) = jobId (sess y)
   \/ truthy (jobId (commit acts (sess y))) = false
   \/ jobId (commit acts (sess y)) <> j) ->
  detached j (render acts y).
Proof.
  intros [Hb Hd] H. split; [now apply render_timer_bound|].
  destruct (render_jobId acts y) as [E|E]; rewrite E;
    [|simpl; discriminate].
  destruct H as [H|[H|H]].
  - now rewrite H.
  - rewrite H. discriminate.
  - auto.
Qed.

(** Where [jobId] can go in one step: it stays, it is cleared, or a
    submission response hands out its new value. *)
Lemma step_jobId (e : Event) (y y' : Sys) :
  step e y = Some y' ->
  jobId (sess y') = jobId (sess y)
  \/ jobId (sess y') = VNull
  \/ (exists n o, e = SubmitResponse n o
                  /\ assigned_id o = Some (jobId (sess y'))).
Proof.
  intros Hs. destruct e; simpl in Hs.
  - destruct ((0 <=? dt) && _); [|discriminate].
    injection Hs as <-. now left.
  - destruct (timer y) as [t|]; [|discriminate].
    destruct (due t =? now y); [|discriminate].
    destruct (toString (owner t)); injection Hs as <-.
    + now left.
    + right. left.
      destruct (render_jobId (poll_catch TypeError)
                  {| sess := sess y; now := now y;
                     timer := Some {| owner := owner t;
                                      due := due t + period |};
                     inflight := inflight y; sent := sent y;
                     unmounted := unmounted y |}) as [E|E];
        rewrite E; reflexivity.
  - destruct (take_request n (inflight y)) as [[r rest]|]; [|discriminate].
    destruct (kind r); try discriminate.
    injection Hs as <-.
    destruct (render_jobId (poll_callback (apiFetch o)) (settle rest y))
      as [E|E]; rewrite E; [|now (right; left)].
    change (sess (settle rest y)) with (sess y).
    destruct (poll_callback_effect (apiFetch o) (sess y))
      as [(Hj & _)|(Hj & _)]; auto.
  - destruct (take_request n (inflight y)) as [[r rest]|]; [|discriminate].
    destruct (kind r); try discriminate; injection Hs as <-.
    + destruct (render_jobId (handleSubmitUrl_resume o) (settle rest y))
        as [E|E]; rewrite E; [|now (right; left)].
      change (sess (settle rest y)) with (sess y).
      destruct (submitUrl_resume_effect o (sess y)) as [(Hj & _)|(Hj & _)].
      * left. now apply jobId_commit_unassigned.
      * right. right. eauto.
    + destruct (render_jobId (handleSubmitFile_resume o) (settle rest y))
        as [E|E]; rewrite E; [|now (right; left)].
      change (sess (settle rest y)) with (sess y).
      destruct (submitFile_resume_effect o (sess y)) as [(Hj & _)|(Hj & _)].
      * left. now apply jobId_commit_unassigned.
      * right. right. eauto.
  - destruct (unmounted y || isLoading (sess y)); [discriminate|].
    destruct (url_blocked imageUrl); injection Hs as <-; [now left|].
    right. left. unfold send. cbn [sess].
    destruct (render_jobId handleSubmitUrl_start y) as [E|E];
      rewrite E; reflexivity.
  - destruct (unmounted y || isLoading (sess y)); [discriminate|].
    destruct file as [f|]; simpl in Hs; injection Hs as <-; [|now left].
    right. left. unfold send. cbn [sess].
    match goal with
    | |- context [render ?a ?z] =>
        destruct (render_jobId a z) as [E|E]; rewrite E; reflexivity
    end.
Qed.

(** One event in a state where [j] is not polled: [j] is still not polled
    afterwards, unless a submission response hands [j] out again, and no
    status request for [j] was issued. *)
Lemma step_detached (j : value) (e : Event) (y y' : Sys) :
  detached j y ->
  match e with
  | SubmitResponse _ o => assigned_id o <> Some j
  | _ => True
  end ->
  step e y = Some y' ->
  detached j y'
  /\ (forall q, In q (sent y') -> kind q = StatusReq j -> In q (sent y)).
Proof.
  intros Hd He Hs. pose proof Hd as [Hb Hne].
  assert (Hb' : timer_bound y') by (eapply step_timer_bound; eauto).
  split.
  - split; [exact Hb'|].
    destruct (step_jobId e y y' Hs) as [E|[E|(n & o & -> & E)]].
    + now rewrite E.
    + rewrite E. simpl. discriminate.
    + intros _ Hj. apply He. now rewrite E, Hj.
  - intros q Hq Hk.
    destruct (step_sent e y y' Hs) as [E|(r & E & Hr)];
      rewrite E in Hq; [exact Hq|].
    apply in_app_iff in Hq as [Hq|[<-|[]]]; [exact Hq|].
    destruct Hr as [(t & _ & Ht & Hr)|[(i & l & _ & _ & Hr)|(f & l & _ & Hr)]];
      rewrite Hr in Hk; try discriminate.
    injection Hk as Hk.
    destruct (Hb t Ht) as (Ho & Htr & _).
    exfalso. apply Hne; [exact Htr|congruence].
Qed.

Lemma run_detached (j : value) (evs : list Event) (y y' : Sys) :
  detached j y ->
  never_reassigned j evs ->
  run evs y = Some y' ->
  forall q, In q (sent y') -> kind q = StatusReq j -> In q (sent y).
Proof.
  revert y. induction evs as [|e evs IH]; intros y Hd Hn Hr; simpl in Hr.
  - injection Hr as <-. auto.
  - destruct (step e y) as [y1|] eqn:Hs; [|discriminate].
    inversion Hn as [|e0 l He Hrest]; subst.
    destruct (step_detached j e y y1 Hd He Hs) as [Hd1 Hsent].
    intros q Hq Hk. apply Hsent; [|exact Hk].
    eapply IH; eauto.
Qed.

Lemma take_request_step (n : nat) (o : FetchOutcome) (y : Sys)
      (r : Request) (rest : list Request) (j : value) :
  take_request n (inflight y) = Some (r, rest) ->
  kind r = StatusReq j ->
  step (PollResponse n o) y
  = Some (render (poll_callback (apiFetch o)) (settle rest y)).
Proof.
  intros Ht Hk. simpl. now rewrite Ht, Hk.
Qed.

(* ================================================================== *)
(** ** The end-to-end run *)
(* ================================================================== *)

(** Submitting [https://x/y.png] yields job123; the first poll reports
    [processing] (progress 50, still loading, interval running); the second
    reports [completed] with both texts: progress 100, not loading, no
    interval, both texts in [result], and exactly two status requests were
    sent. *)
Example end_to_end :
  run submitted_job123 mounted = Some after_submission
  /\ sess after_submission
     = {| jobId := VStr "job123"; result := pendingPlaceholder;
          isLoading := true; error := None; progress := 5 |}
  /\ timer after_submission = Some {| owner := VStr "job123"; due := 3100 |}
  /\ run polling_job123 after_submission = Some before_completion
  /\ sess before_completion
     = {| jobId := VStr "job123";
          result := VObj [("status", VStr "processing")];
          isLoading := true; error := None; progress := 50 |}
  /\ step (PollResponse 2 completedResponse) before_completion
     = Some after_completion
  /\ sess after_completion
     = {| jobId := VNull; result := completedHola;
          isLoading := false; error := None; progress := 100 |}
  /\ timer after_completion = None
  /\ inflight after_completion = []
  /\ List.length (filter is_status (sent after_completion)) = 2%nat
  /\ step Fire after_completion = None.
Proof.
  repeat split.
Qed.

(* ================================================================== *)
(** ** Terminal and failed ticks *)
(* ================================================================== *)

(** What a terminal payload leaves, whether or not the page renders with
    it. *)
Lemma terminal_tick_render (data : value) (z : Sys) :
  terminal_payload data ->
  sess (render (poll_callback (Return data)) z)
  = {| jobId := VNull; result := data; isLoading := false;
       error := error (sess z); progress := 100 |}
  /\ timer (render (poll_callback (Return data)) z) = None.
Proof.
  intros Hterm.
  destruct (terminal_payload_flag data Hterm) as (st & Hst & Hp & Hc).
  assert (Hobj : is_ref data = true).
  { destruct Hterm as [H|H]; apply get_string_is_object in H as [f ->];
      reflexivity. }
  assert (Hacts : poll_callback (Return data)
                  = [setResult data; setProgress 100; setJobId VNull;
                     setIsLoading false]).
  { unfold poll_callback. now rewrite Hst, Hp, Hc. }
  rewrite Hacts.
  destruct (render_throws [setResult data; setProgress 100; setJobId VNull;
                           setIsLoading false]
              (commit [setResult data; setProgress 100; setJobId VNull;
                       setIsLoading false] (sess z))) eqn:Hthrow.
  - rewrite (render_crash _ z Hthrow). split; reflexivity.
  - rewrite (render_ok _ z Hthrow). split; [reflexivity|].
    unfold deps_changed, same_dep. simpl. rewrite Hobj. simpl.
    rewrite orb_true_r. reflexivity.
Qed.

(** C3: a poll tick whose response carries status [completed] or [failed]
    leaves [result] equal to that response, progress 100 and [isLoading]
    false; the interval is gone; and from then on no status request is
    issued for that job id, as long as no later submission is handed the
    same id again. *)
Theorem terminal_tick_finalizes :
  forall (y : Sys) (n : nat) (o : FetchOutcome) (r : Request)
         (rest : list Request) (j data : value),
    take_request n (inflight y) = Some (r, rest) ->
    kind r = StatusReq j ->
    apiFetch o = Return data ->
    terminal_payload data ->
    exists y',
      step (PollResponse n o) y = Some y'
      /\ result (sess y') = data
      /\ progress (sess y') = 100
      /\ isLoading (sess y') = false
      /\ timer y' = None
      /\ (forall evs y'',
             never_reassigned j evs ->
             run evs y' = Some y'' ->
             forall q, In q (sent y'') -> kind q = StatusReq j ->
                       In q (sent y')).
Proof.
  intros y n o r rest j data Ht Hk Ho Hterm.
  exists (render (poll_callback (apiFetch o)) (settle rest y)).
  split; [eapply take_request_step; eauto|].
  rewrite Ho.
  destruct (terminal_tick_render data (settle rest y) Hterm)
    as [Hsess Htimer].
  set (y' := render (poll_callback (Return data)) (settle rest y)) in *.
  split; [now rewrite Hsess|].
  split; [now rewrite Hsess|].
  split; [now rewrite Hsess|].
  split; [exact Htimer|].
  intros evs y'' Hn Hr. eapply run_detached; [|exact Hn|exact Hr].
  split.
  - intros t Ht'. rewrite Htimer in Ht'. discriminate.
  - rewrite Hsess. simpl. discriminate.
Qed.

(** job123's second status response reports completion. *)
Lemma terminal_tick_finalizes_witness :
  exists y',
    step (PollResponse 2 completedResponse) before_completion = Some y'
    /\ result (sess y') = completedHola
    /\ progress (sess y') = 100
    /\ isLoading (sess y') = false
    /\ timer y' = None
    /\ (forall evs y'',
           never_reassigned (VStr "job123") evs ->
           run evs y' = Some y'' ->
           forall q, In q (sent y'') -> kind q = StatusReq (VStr "job123") ->
                     In q (sent y')).
Proof.
  apply (terminal_tick_finalizes before_completion 2 completedResponse
           {| rid := 2; kind := StatusReq (VStr "job123"); issued := 6300 |}
           [] (VStr "job123") completedHola).
  - reflexivity.
  - reflexivity.
  - reflexivity.
  - left. reflexivity.
Defined.

(** C4: a poll tick whose status fetch fails (a rejected [fetch], a body
    that is not JSON, or a non-2xx response) leaves [error] set to the
    classified message (an [ApiError]'s message, else the poll fallback)
    and [isLoading] false; the interval is gone; and no further status
    request is issued for that job id -- the failed tick is not retried --
    as long as no later submission is handed the same id again. *)
Theorem failed_tick_halts :
  forall (y : Sys) (n : nat) (o : FetchOutcome) (r : Request)
         (rest : list Request) (j : value) (e : Exn),
    reachable y ->
    take_request n (inflight y) = Some (r, rest) ->
    kind r = StatusReq j ->
    apiFetch o = Throw e ->
    exists y',
      step (PollResponse n o) y = Some y'
      /\ error (sess y')
         = Some (match e with ApiError m _ _ => m | _ => pollFallback end)
      /\ isLoading (sess y') = false
      /\ timer y' = None
      /\ (forall evs y'',
             never_reassigned j evs ->
             run evs y' = Some y'' ->
             forall q, In q (sent y'') -> kind q = StatusReq j ->
                       In q (sent y')).
Proof.
  intros y n o r rest j e Hreach Ht Hk Ho.
  apply reachable_timer_bound in Hreach.
  exists (render (poll_callback (apiFetch o)) (settle rest y)).
  split; [eapply take_request_step; eauto|].
  rewrite Ho. change (poll_callback (Throw e)) with (poll_catch e).
  set (y' := render (poll_catch e) (settle rest y)).
  assert (Hjob : jobId (sess y') = VNull) by reflexivity.
  assert (Htimer : timer y' = None).
  { apply render_no_timer; [exact Hreach|reflexivity]. }
  split; [reflexivity|].
  split; [reflexivity|].
  split; [exact Htimer|].
  intros evs y'' Hn Hr. eapply run_detached; [|exact Hn|exact Hr].
  split.
  - intros t Ht'. rewrite Htimer in Ht'. discriminate.
  - rewrite Hjob. discriminate.
Qed.

(** job123's second status request is answered 422 with a message. *)
Lemma failed_tick_halts_witness :
  exists y',
    step (PollResponse 2 badImage) before_completion = Some y'
    /\ error (sess y') = Some "bad image"
    /\ isLoading (sess y') = false
    /\ timer y' = None
    /\ (forall evs y'',
           never_reassigned (VStr "job123") evs ->
           run evs y' = Some y'' ->
           forall q, In q (sent y'') -> kind q = StatusReq (VStr "job123") ->
                     In q (sent y')).
Proof.
  apply (failed_tick_halts before_completion 2 badImage
           {| rid := 2; kind := StatusReq (VStr "job123"); issued := 6300 |}
           [] (VStr "job123")
           (ApiError "bad image" 422 (VObj [("message", VStr "bad image")]))).
  - exists (submitted_job123 ++ polling_job123). vm_compute. reflexivity.
  - reflexivity.
  - reflexivity.
  - reflexivity.
Defined.

(* ================================================================== *)
(** ** Progress over the ticks of one job *)
(* ================================================================== *)

Lemma submit_resume_progress (o : FetchOutcome) (s : Session) :
  progress (commit (handleSubmitUrl_resume o) s) = progress s
  /\ progress (commit (handleSubmitFile_resume o) s) = progress s.
Proof.
  split.
  - unfold handleSubmitUrl_resume, apiFetch.
    destruct o as [|status [data|]]; simpl; try reflexivity.
    destruct (ok status); simpl.
    + destruct (get data "data") as [d|]; simpl; [|reflexivity].
      destruct (get d "digitizationId"); reflexivity.
    + destruct (get data "message"); reflexivity.
  - unfold handleSubmitFile_resume.
    destruct o as [|status [data|]]; simpl; try reflexivity.
    destruct (ok status); simpl.
    + destruct (get data "data") as [d|]; simpl; [|reflexivity].
      destruct (get d "digitizationId"); reflexivity.
    + destruct (get data "message"); reflexivity.
Qed.


(* ================================================================== *)
(** ** Executions with prompt status responses *)
(* ================================================================== *)

Lemma prompt_single (y : Sys) (r : Request) (j : value) :
  prompt y = true -> inflight y = [r] -> kind r = StatusReq j ->
  now y < issued r + period.
Proof.
  unfold prompt, is_status. intros Hp Hi Hk. rewrite Hi in Hp. simpl in Hp.
  rewrite Hk in Hp. simpl in Hp. rewrite andb_true_r in Hp. lia.
Qed.

Lemma take_request_single (n : nat) (r r' : Request) (rest : list Request) :
  take_request n [r] = Some (r', rest) -> r' = r /\ rest = [].
Proof.
  simpl. destruct (Nat.eqb (rid r) n); [|discriminate].
  intros H. injection H as <- <-. auto.
Qed.

(** The three shapes of the outstanding requests, as a case split. *)
Lemma calm_cases (y : Sys) :
  calm y ->
  (inflight y = [] )
  \/ (exists r, inflight y = [r] /\ is_status r = false
                /\ timer y = None /\ isLoading (sess y) = true)
  \/ (exists r j t, inflight y = [r] /\ kind r = StatusReq j
                    /\ timer y = Some t /\ owner t = j
                    /\ issued r + period <= due t
                    /\ isLoading (sess y) = true).
Proof.
  intros (Hb & Hbusy & [H|[H|(r & j & t & Hi & Hk & Ht & Ho & Hd)]]); auto.
  right. right. exists r, j, t. repeat split; auto. now apply (Hbusy t).
Qed.

Lemma idle_when_enabled (y : Sys) :
  calm y -> isLoading (sess y) = false ->
  timer y = None /\ inflight y = [].
Proof.
  intros Hc Hl. pose proof Hc as (_ & Hbusy & _).
  assert (Ht : timer y = None).
  { destruct (timer y) as [t|] eqn:E; [|reflexivity].
    rewrite (Hbusy t eq_refl) in Hl. discriminate. }
  split; [exact Ht|].
  destruct (calm_cases y Hc) as [H|[(r & _ & _ & _ & H)|(r & j & t & _ & _ & H & _)]];
    [exact H|congruence|congruence].
Qed.

Lemma calm_step (e : Event) (y y' : Sys) :
  calm y -> prompt y = true -> step e y = Some y' -> calm y'.
Proof.
  intros Hc Hp Hs.
  pose proof Hc as (Hb & Hbusy & Hshape).
  assert (Hb' : timer_bound y') by (eapply step_timer_bound; eauto).
  split; [exact Hb'|]. clear Hb'.
  destruct e; simpl in Hs.
  - (* Wait *)
    destruct ((0 <=? dt) && _); [|discriminate].
    injection Hs as <-. split; [exact Hbusy|exact Hshape].
  - (* Fire *)
    destruct (calm_cases y Hc)
      as [Hi|[(r & _ & _ & Hn & _)|(r & j & t0 & Hi & Hk & Ht0 & _ & Hd & _)]].
    + destruct (timer y) as [t|] eqn:Ht; [|discriminate].
      destruct (due t =? now y) eqn:Hdue; [|discriminate].
      apply Z.eqb_eq in Hdue.
      pose proof (Hbusy t eq_refl) as Hload.
      destruct (toString (owner t)); injection Hs as <-.
      * split; [intros; exact Hload|].
        right. right. simpl. rewrite Hi. simpl.
        eexists _, (owner t), _. repeat split. simpl. lia.
      * match goal with
        | |- context [render ?a ?z] =>
            assert (Hnt : timer (render a z) = None);
            [ apply render_no_timer;
              [|now rewrite (render_jobId_null a z eq_refl)]
            | assert (Hin : inflight (render a z) = [])
                by (now apply render_inflight_nil) ]
        end.
        { intros t' Ht'. simpl in Ht'. injection Ht' as <-. simpl.
          destruct (Hb t Ht) as (Ho & Htr & Hte & _).
          pose proof period_pos. repeat split; auto. lia. }
        split; [intros t' Ht'; rewrite Hnt in Ht'; discriminate|].
        left. exact Hin.
    + rewrite Hn in Hs. discriminate.
    + rewrite Ht0 in Hs.
      destruct (due t0 =? now y) eqn:Hdue; [|discriminate].
      apply Z.eqb_eq in Hdue.
      pose proof (prompt_single y r j Hp Hi Hk). lia.
  - (* PollResponse *)
    destruct (calm_cases y Hc)
      as [Hi|[(r & Hi & Hk & _)|(r & j & t0 & Hi & Hk & Ht0 & _ & _ & Hload)]];
      rewrite Hi in Hs; simpl in Hs; [discriminate| |].
    + destruct (Nat.eqb (rid r) n); [|discriminate].
      unfold is_status in Hk. destruct (kind r); discriminate.
    + destruct (Nat.eqb (rid r) n); [|discriminate].
      rewrite Hk in Hs. injection Hs as <-.
      split; [|left; now apply render_inflight_nil].
      intros t Ht. rewrite render_isLoading.
      change (sess (settle [] y)) with (sess y).
      destruct (poll_callback_effect (apiFetch o) (sess y))
        as [(_ & Hl & _)|(Hj & _)].
      * now rewrite Hl.
      * rewrite render_no_timer in Ht; [discriminate|exact Hb|].
        now rewrite (render_jobId_null _ (settle [] y) Hj).
  - (* SubmitResponse *)
    destruct (calm_cases y Hc)
      as [Hi|[(r & Hi & Hk & Hn & Hload)|(r & j & t0 & Hi & Hk & _)]];
      rewrite Hi in Hs; simpl in Hs; [discriminate| |].
    + destruct (Nat.eqb (rid r) n); [|discriminate].
      destruct (kind r) eqn:Hkr; [discriminate| |]; injection Hs as <-;
        (split; [|left; now apply render_inflight_nil]); intros t Ht;
        rewrite render_isLoading; change (sess (settle [] y)) with (sess y).
      * destruct (submitUrl_resume_effect o (sess y)) as [(Hj & Hr)|(_ & Hl)].
        -- destruct (render_untouched _ (settle [] y) Hj Hr) as [Hsame _].
           rewrite Hsame in Ht. simpl in Ht. congruence.
        -- now rewrite Hl.
      * destruct (submitFile_resume_effect o (sess y)) as [(Hj & Hr)|(_ & Hl)].
        -- destruct (render_untouched _ (settle [] y) Hj Hr) as [Hsame _].
           rewrite Hsame in Ht. simpl in Ht. congruence.
        -- now rewrite Hl.
    + destruct (Nat.eqb (rid r) n); [|discriminate].
      rewrite Hk in Hs. discriminate.
  - (* SubmitUrl *)
    destruct (unmounted y || isLoading (sess y)) eqn:Hen; [discriminate|].
    apply orb_false_iff in Hen as [_ Hl].
    destruct (idle_when_enabled y Hc Hl) as [Ht Hi].
    destruct (url_blocked imageUrl); injection Hs as <-;
      [split; [exact Hbusy|exact Hshape]|].
    assert (Hnt : timer (render handleSubmitUrl_start y) = None).
    { apply render_no_timer; [exact Hb|].
      now rewrite (render_jobId_null handleSubmitUrl_start y eq_refl). }
    split.
    + intros t Ht'.
      change (timer (render handleSubmitUrl_start y) = Some t) in Ht'.
      rewrite Hnt in Ht'. discriminate.
    + right. left. eexists.
      split; [unfold send; cbn [inflight];
              rewrite (render_inflight_nil _ y Hi); reflexivity|].
      split; [reflexivity|]. split; [exact Hnt|].
      unfold send. cbn [sess]. now rewrite render_isLoading.
  - (* SubmitFile *)
    destruct (unmounted y || isLoading (sess y)) eqn:Hen; [discriminate|].
    apply orb_false_iff in Hen as [_ Hl].
    destruct (idle_when_enabled y Hc Hl) as [Ht Hi].
    destruct file as [f|]; simpl in Hs; injection Hs as <-;
      [|split; [exact Hbusy|exact Hshape]].
    match goal with
    | |- context [render ?a y] =>
        assert (Hnt : timer (render a y) = None)
          by (apply render_no_timer; [exact Hb|];
              now rewrite (render_jobId_null a y eq_refl));
        assert (Hin : inflight (render a y) = [])
          by (now apply render_inflight_nil);
        assert (Hld : isLoading (sess (render a y)) = true)
          by (now rewrite render_isLoading)
    end.
    split.
    + intros t Ht'. unfold send in Ht'. cbn [timer] in Ht'.
      rewrite Hnt in Ht'. discriminate.
    + right. left. eexists.
      split; [unfold send; cbn [inflight]; rewrite Hin; reflexivity|].
      split; [reflexivity|]. split; [exact Hnt|exact Hld].
Qed.

Lemma calm_mounted : calm mounted.
Proof.
  split; [apply mounted_timer_bound|].
  split; [intros t Ht; discriminate|now left].
Qed.

Lemma calm_run (evs : list Event) (y0 y : Sys) :
  calm y0 ->
  Forall (fun x => prompt x = true) (states evs y0) ->
  run evs y0 = Some y ->
  calm y.
Proof.
  revert y0. induction evs as [|e evs IH]; intros y0 Hc Hall Hr; simpl in *.
  - now injection Hr as <-.
  - destruct (step e y0) as [y1|] eqn:Hs; [|discriminate].
    inversion Hall as [|x l Hp Hrest]; subst.
    apply (IH y1); try assumption.
    eapply calm_step; eauto.
Qed.

(* ================================================================== *)
(** ** Overlapping requests *)
(* ================================================================== *)

(** An object payload that is not terminal carries a status that is
    neither of the two final ones. *)
Lemma nonterminal_status (data : value) :
  is_ref data = true ->
  terminal data = false ->
  exists st, get data "status" = Some st
             /\ is_str st "completed" || is_str st "failed" = false.
Proof.
  intros Hobj Hterm. destruct data; try discriminate Hobj.
  - exists VUndefined. split; reflexivity.
  - unfold terminal in Hterm. simpl truthy in Hterm.
    destruct (get (VObj fields) "status") as [st|] eqn:E.
    + exists st. split; [reflexivity|exact Hterm].
    + simpl in E. destruct (lookup "status" fields); discriminate.
Qed.

(** The render after a status response whose payload is a non-terminal
    object that the result section can display, while a job id is active:
    the payload is stored, the other cells but [progress] are untouched,
    and the interval is re-created. *)
Lemma nonterminal_tick_render (data : value) (z : Sys) :
  is_ref data = true ->
  terminal data = false ->
  result_renders data = true ->
  truthy (jobId (sess z)) = true ->
  result (sess (render (poll_callback (Return data)) z)) = data
  /\ jobId (sess (render (poll_callback (Return data)) z)) = jobId (sess z)
  /\ isLoading (sess (render (poll_callback (Return data)) z))
     = isLoading (sess z)
  /\ error (sess (render (poll_callback (Return data)) z)) = error (sess z)
  /\ timer (render (poll_callback (Return data)) z)
     = Some {| owner := jobId (sess z); due := now z + period |}
  /\ inflight (render (poll_callback (Return data)) z) = inflight z
  /\ sent (render (poll_callback (Return data)) z) = sent z
  /\ unmounted (render (poll_callback (Return data)) z) = unmounted z.
Proof.
  intros Hobj Hterm Hrend Hj.
  destruct (nonterminal_status data Hobj Hterm) as (st & Hst & Hflag).
  assert (Hfacts : existsb assigns_result (poll_callback (Return data)) = true
                   /\ result (commit (poll_callback (Return data)) (sess z))
                      = data
                   /\ jobId (commit (poll_callback (Return data)) (sess z))
                      = jobId (sess z)
                   /\ isLoading (commit (poll_callback (Return data)) (sess z))
                      = isLoading (sess z)
                   /\ error (commit (poll_callback (Return data)) (sess z))
                      = error (sess z)).
  { unfold poll_callback. rewrite Hst, Hflag.
    destruct (is_str st "processing"); repeat split. }
  destruct Hfacts as (Ha & Hr & Hjob & Hl & He).
  rewrite render_ok by (apply render_renders; now rewrite Hr).
  cbn [sess timer inflight sent unmounted].
  repeat (split; [assumption|]).
  split; [|repeat split].
  assert (Hch : deps_changed (poll_callback (Return data)) (sess z)
                  (commit (poll_callback (Return data)) (sess z)) = true).
  { unfold deps_changed, same_dep. rewrite Hr, Hobj, Ha. simpl.
    apply orb_true_r. }
  rewrite Hch. unfold polling_effect. rewrite Hjob, Hr, Hj, Hterm.
  reflexivity.
Qed.

(** C2, as stated, fails: the interval fires on its fixed cadence whether
    or not the previous check has completed.  When job A's first status
    response takes longer than 3000 ms, the second tick issues a second
    request while the first is still outstanding. *)
Lemma overlapping_status_requests :
  exists y,
    run overlap_trace mounted = Some y
    /\ now y = 6100
    /\ inflight y
       = [ {| rid := 1; kind := StatusReq (VStr "A"); issued := 3100 |};
           {| rid := 2; kind := StatusReq (VStr "A"); issued := 6100 |} ].
Proof.
  eexists. split; [vm_compute; reflexivity|]. split; reflexivity.
Qed.

(** C2, amended: in every execution in which each status response arrives
    less than 3000 ms after its request was issued, at most one status
    request is outstanding in every state; and a response whose payload is
    a non-terminal object that the result section can display, applied
    while a job id is active, re-creates the interval, so that the next
    tick comes exactly 3000 ms after that response and Home stays
    mounted. *)
Theorem one_outstanding_when_prompt :
  (forall (evs : list Event) (y : Sys),
      Forall (fun x => prompt x = true) (states evs mounted) ->
      run evs mounted = Some y ->
      (List.length (filter is_status (inflight y)) <= 1)%nat)
  /\ (forall (y y' : Sys) (n : nat) (o : FetchOutcome) (data : value),
        step (PollResponse n o) y = Some y' ->
        apiFetch o = Return data ->
        is_ref data = true ->
        terminal data = false ->
        result_renders data = true ->
        truthy (jobId (sess y)) = true ->
        timer y' = Some {| owner := jobId (sess y);
                           due := now y + period |}
        /\ unmounted y' = unmounted y).
Proof.
  split.
  - intros evs y Hall Hr.
    pose proof (calm_run evs mounted y calm_mounted Hall Hr) as Hc.
    destruct (calm_cases y Hc) as [H|[(r & H & _)|(r & j & t & H & _)]];
      rewrite H; simpl; [lia| |]; destruct (is_status r); simpl; lia.
  - intros y y' n o data Hs Ho Hobj Hterm Hrend Hj. simpl in Hs.
    destruct (take_request n (inflight y)) as [[r rest]|]; [|discriminate].
    destruct (kind r); try discriminate.
    injection Hs as <-. rewrite Ho.
    destruct (nonterminal_tick_render data (settle rest y)
                Hobj Hterm Hrend Hj)
      as (_ & _ & _ & _ & Ht & _ & _ & Hu).
    split; [exact Ht|exact Hu].
Qed.

(** job123's run, in which every response arrives within 200 ms; and its
    second status response, arriving at 6400 with [processing], after which
    the next tick is due at 9400. *)
Lemma one_outstanding_when_prompt_witness :
  (List.length (filter is_status (inflight before_completion)) <= 1)%nat
  /\ (timer still_processing
      = Some {| owner := jobId (sess before_completion);
                due := now before_completion + period |}
      /\ unmounted still_processing = unmounted before_completion).
Proof.
  split.
  - apply (proj1 one_outstanding_when_prompt
                 (submitted_job123 ++ polling_job123) before_completion).
    + vm_compute. repeat constructor.
    + reflexivity.
  - apply (proj2 one_outstanding_when_prompt
                 before_completion still_processing 2%nat
                 (statusOf "processing")
                 (VObj [("status", VStr "processing")])).
    + reflexivity.
    + reflexivity.
    + reflexivity.
    + reflexivity.
    + reflexivity.
    + reflexivity.
Defined.

(* ================================================================== *)
(** ** Stale responses *)
(* ================================================================== *)

(** C1, as stated, fails: a response is applied without any check of its
    job id.  Job A has two overlapping requests; the first answer completes
    A, the user submits job B, and while B is the active job the second
    answer for A arrives: it replaces [result], sets progress 100, clears
    [isLoading] and [jobId], and so ends the polling of B. *)
Lemma stale_response_is_applied :
  exists y y',
    run superseded_trace mounted = Some y
    /\ sess y = {| jobId := VStr "B"; result := pendingPlaceholder;
                   isLoading := true; error := None; progress := 5 |}
    /\ inflight y
       = [ {| rid := 2; kind := StatusReq (VStr "A"); issued := 6100 |} ]
    /\ step (PollResponse 2 completedResponse) y = Some y'
    /\ sess y' = {| jobId := VNull; result := completedHola;
                    isLoading := false; error := None; progress := 100 |}
    /\ timer y' = None
    /\ sess y' <> sess y.
Proof.
  eexists. eexists.
  split; [vm_compute; reflexivity|].
  split; [reflexivity|].
  split; [reflexivity|].
  split; [vm_compute; reflexivity|].
  split; [reflexivity|].
  split; [reflexivity|].
  discriminate.
Qed.

(** C1, amended: the callback applies every successful status response to
    the session, whatever job id is active.  What keeps responses and the
    active job together is that the interval always belongs to the active
    job id (a change of [jobId] or [result] clears it), so every status
    request is issued for the id active at that moment; and in every
    execution in which each status response arrives less than 3000 ms after
    its request, a response always arrives while its own job id is still
    the active one. *)
Theorem responses_meet_active_job :
  (forall (y : Sys) (n : nat) (o : FetchOutcome) (r : Request)
          (rest : list Request) (j data : value),
      take_request n (inflight y) = Some (r, rest) ->
      kind r = StatusReq j ->
      apiFetch o = Return data ->
      exists y', step (PollResponse n o) y = Some y'
                 /\ result (sess y') = data)
  /\ (forall (y : Sys) (t : Timer),
        reachable y -> timer y = Some t -> owner t = jobId (sess y))
  /\ (forall (evs : list Event) (y : Sys) (n : nat) (r : Request)
             (rest : list Request) (j : value),
        Forall (fun x => prompt x = true) (states evs mounted) ->
        run evs mounted = Some y ->
        take_request n (inflight y) = Some (r, rest) ->
        kind r = StatusReq j ->
        jobId (sess y) = j).
Proof.
  split; [|split].
  - intros y n o r rest j data Ht Hk Ho.
    eexists. split; [eapply take_request_step; eauto|].
    rewrite Ho, render_result. apply poll_callback_result.
  - intros y t Hreach Ht.
    now destruct (reachable_timer_bound y Hreach t Ht) as (Ho & _).
  - intros evs y n r rest j Hall Hr Ht Hk.
    pose proof (calm_run evs mounted y calm_mounted Hall Hr) as Hc.
    pose proof Hc as (Hb & _).
    destruct (calm_cases y Hc)
      as [H|[(r0 & H & Hs & _)|(r0 & j0 & t & H & Hk0 & Htm & Ho & _)]];
      rewrite H in Ht.
    + discriminate.
    + apply take_request_single in Ht as [-> _].
      unfold is_status in Hs. rewrite Hk in Hs. discriminate.
    + apply take_request_single in Ht as [-> _].
      destruct (Hb t Htm) as (Hown & _).
      congruence.
Qed.

(** job123's second request is outstanding while job123 is active. *)
Lemma responses_meet_active_job_witness :
  jobId (sess before_completion) = VStr "job123".
Proof.
  apply (proj2 (proj2 responses_meet_active_job)
               (submitted_job123 ++ polling_job123) before_completion 2%nat
               {| rid := 2; kind := StatusReq (VStr "job123"); issued := 6300 |}
               []).
  - vm_compute. repeat constructor.
  - reflexivity.
  - reflexivity.
  - reflexivity.
Defined.

(* ================================================================== *)
(** ** More on the fetch wrapper *)
(* ================================================================== *)

(** X1: [apiFetch] returns normally exactly for a 2xx response whose body
    parses to something other than [null], and then returns the body's
    [data] property ([undefined] when there is none); it throws an
    [ApiError] only for a non-2xx response with a parsed body, and that
    error carries the response's status and the whole parsed body, its
    message being the string form of the truthy [message] property or of
    the wrapper's constant. *)
Theorem apiFetch_outcomes :
  forall (o : FetchOutcome),
    (forall d,
        apiFetch o = Return d <->
        exists status body,
          o = HttpResponse status (Some body)
          /\ ok status = true /\ get body "data" = Some d)
    /\ (forall m st d,
          apiFetch o = Throw (ApiError m st d) ->
          o = HttpResponse st (Some d)
          /\ ok st = false
          /\ exists mv, get d "message" = Some mv
                        /\ toString (or_else mv (VStr "An API error occurred"))
                           = Some m).
Proof.
  intros o. split.
  - intros d. split.
    + destruct o as [|status [body|]]; simpl; try discriminate.
      destruct (ok status) eqn:Hok; simpl.
      * destruct (get body "data") as [x|] eqn:Hd; [|discriminate].
        intros H. injection H as <-. exists status, body. auto.
      * destruct (get body "message"); discriminate.
    + intros (status & body & -> & Hok & Hd). simpl.
      rewrite Hok, Hd. reflexivity.
  - intros m st d.
    destruct o as [|status [body|]]; simpl; try discriminate.
    destruct (ok status) eqn:Hok; simpl.
    + destruct (get body "data"); discriminate.
    + destruct (get body "message") as [mv|] eqn:Hm; [|discriminate].
      unfold newApiError.
      destruct (toString (or_else mv (VStr "An API error occurred")))
        as [sm|] eqn:Hs; [|discriminate].
      intros H. injection H as <- <- <-.
      split; [reflexivity|]. split; [exact Hok|]. exists mv. auto.
Qed.

Lemma apiFetch_outcomes_witness :
  badImage = HttpResponse 422 (Some (VObj [("message", VStr "bad image")]))
  /\ ok 422 = false
  /\ exists mv,
      get (VObj [("message", VStr "bad image")]) "message" = Some mv
      /\ toString (or_else mv (VStr "An API error occurred"))
         = Some "bad image".
Proof.
  apply (proj2 (apiFetch_outcomes badImage) "bad image" 422
               (VObj [("message", VStr "bad image")])).
  reflexivity.
Defined.

Lemma lookup_set_prop (k k' : string) (v : value) (o : list (string * value)) :
  lookup k (set_prop k' v o)
  = if (k =? k')%string then Some v else lookup k o.
Proof.
  induction o as [|[k1 v1] o IH]; simpl.
  - destruct (k =? k')%string; reflexivity.
  - destruct (String.eqb_spec k' k1) as [->|Hne]; simpl.
    + destruct (k =? k1)%string; reflexivity.
    + destruct (String.eqb_spec k k1) as [->|Hne1].
      * destruct (String.eqb_spec k1 k') as [E|_]; [congruence|reflexivity].
      * exact IH.
Qed.

Lemma lookup_absent (k : string) (o : list (string * value)) :
  ~ In k (map fst o) -> lookup k o = None.
Proof.
  induction o as [|[k1 v1] o IH]; simpl; intros H; [reflexivity|].
  destruct (String.eqb_spec k k1) as [->|_]; [exfalso; auto|].
  apply IH. auto.
Qed.

(** Reading a key of [{ ...o, ...src }]: the value [src] has for it, else
    the one [o] has. *)
Lemma lookup_spread_into (k : string) (src o : list (string * value)) :
  NoDup (map fst src) ->
  lookup k (spread_into o src)
  = match lookup k src with
    | Some v => Some v
    | None => lookup k o
    end.
Proof.
  unfold spread_into. revert o.
  induction src as [|[k1 v1] src IH]; intros o Hnd; simpl; [reflexivity|].
  inversion Hnd as [|x l Hnotin Hnd']; subst.
  rewrite (IH _ Hnd'), lookup_set_prop.
  destruct (String.eqb_spec k k1) as [->|_]; [|reflexivity].
  now rewrite (lookup_absent k1 src Hnotin).
Qed.

(** X2: when the caller's [headers] option is a plain object, the object
    literal [apiFetch] hands to [fetch] as [headers] holds, under each
    property name compared exactly as written, the caller's value for that
    name, and otherwise [application/json] under the one name
    [Content-Type] and nothing else: a caller's [Content-Type] replaces the
    default, a caller's [content-type] in another case does not and stands
    next to it, and no property appears that the caller did not give.  The
    other options ([method], [body], ...) reach [fetch] unchanged. *)
Theorem request_headers_merge :
  forall (options h : list (string * value)),
    lookup "headers" options = Some (VObj h) ->
    NoDup (map fst h) ->
    NoDup (map fst options) ->
    (forall k,
        lookup k (request_headers options)
        = match lookup k h with
          | Some v => Some v
          | None => if (k =? "Content-Type")%string
                    then Some (VStr "application/json") else None
          end)
    /\ (forall v,
          lookup "content-type" h = Some v ->
          lookup "Content-Type" h = None ->
          lookup "content-type" (request_headers options) = Some v
          /\ lookup "Content-Type" (request_headers options)
             = Some (VStr "application/json"))
    /\ lookup "headers" (request_init options)
       = Some (VObj (request_headers options))
    /\ (forall k, k <> "headers" ->
                  lookup k (request_init options) = lookup k options).
Proof.
  intros options h Hh Hnd Hndo.
  assert (Hk : forall k,
             lookup k (request_headers options)
             = match lookup k h with
               | Some v => Some v
               | None => if (k =? "Content-Type")%string
                         then Some (VStr "application/json") else None
               end).
  { intros k. unfold request_headers, headers_of. rewrite Hh.
    simpl own_props. rewrite (lookup_spread_into k h _ Hnd). simpl.
    destruct (lookup k h); reflexivity. }
  split; [exact Hk|]. split; [|split].
  - intros v Hl Hu. rewrite !Hk, Hl, Hu. split; reflexivity.
  - unfold request_init. rewrite lookup_set_prop. reflexivity.
  - intros k Hne. unfold request_init. rewrite lookup_set_prop.
    destruct (String.eqb_spec k "headers") as [E|_]; [contradiction|].
    rewrite (lookup_spread_into k options [] Hndo). simpl.
    destruct (lookup k options); reflexivity.
Qed.

Lemma request_headers_merge_witness :
  lookup "Content-Type"
    (request_headers
       [("method", VStr "POST");
        ("headers", VObj [("Content-Type", VStr "text/plain");
                          ("X-Trace", VStr "1")])])
  = Some (VStr "text/plain").
Proof.
  apply (proj1 (request_headers_merge
                  [("method", VStr "POST");
                   ("headers", VObj [("Content-Type", VStr "text/plain");
                                     ("X-Trace", VStr "1")])]
                  [("Content-Type", VStr "text/plain"); ("X-Trace", VStr "1")]
                  eq_refl
                  ltac:(repeat constructor; simpl; intuition discriminate)
                  ltac:(repeat constructor; simpl; intuition discriminate))
               "Content-Type").
Defined.

(** X3: called without a [headers] option -- as both callers in [Home]
    do -- [apiFetch] sends exactly one header, [Content-Type:
    application/json], and passes every option it was given on to
    [fetch]. *)
Theorem request_default_headers :
  forall (options : list (string * value)),
    lookup "headers" options = None ->
    NoDup (map fst options) ->
    request_headers options = [("Content-Type", VStr "application/json")]
    /\ lookup "headers" (request_init options)
       = Some (VObj [("Content-Type", VStr "application/json")])
    /\ (forall k, k <> "headers" ->
                  lookup k (request_init options) = lookup k options).
Proof.
  intros options Hh Hnd.
  assert (E : request_headers options
              = [("Content-Type", VStr "application/json")]).
  { unfold request_headers, headers_of. now rewrite Hh. }
  split; [exact E|]. split.
  - unfold request_init. rewrite lookup_set_prop, E. reflexivity.
  - intros k Hk. unfold request_init. rewrite lookup_set_prop.
    destruct (String.eqb_spec k "headers") as [F|_]; [contradiction|].
    rewrite (lookup_spread_into k options [] Hnd). simpl.
    destruct (lookup k options); reflexivity.
Qed.

Lemma request_default_headers_witness :
  lookup "method"
    (request_init [("method", VStr "POST"); ("body", VStr "{}")])
  = Some (VStr "POST").
Proof.
  rewrite (proj2 (proj2 (request_default_headers
                           [("method", VStr "POST"); ("body", VStr "{}")]
                           eq_refl
                           ltac:(repeat constructor; simpl;
                                 intuition discriminate)))
                 "method" ltac:(discriminate)).
  reflexivity.
Defined.

(* ================================================================== *)
(** ** Invariants of every execution *)
(* ================================================================== *)






Lemma app_not_nil {A : Type} (l : list A) (x : A) : l ++ [x] <> [].
Proof. destruct l; discriminate. Qed.

(** Progress is 0 with nothing ever sent, nothing outstanding and no
    interval, or one of 5, 50, 100 with something sent: kept by every
    step. *)
Lemma step_progress_shape (e : Event) (y y' : Sys) :
  progress_shape y /\ (sent y = [] -> inflight y = [] /\ timer y = None) ->
  step e y = Some y' ->
  progress_shape y' /\ (sent y' = [] -> inflight y' = [] /\ timer y' = None).
Proof.
  intros [Hshape Hfresh] Hs.
  assert (Hkeep : forall z : Sys,
             sent z = sent y -> inflight z = inflight y \/ sent y <> [] ->
             timer z = timer y \/ sent y <> [] ->
             (progress (sess z) = progress (sess y)
              \/ (sent y <> [] /\ (progress (sess z) = 5
                                  \/ progress (sess z) = 50
                                  \/ progress (sess z) = 100))) ->
             progress_shape z
             /\ (sent z = [] -> inflight z = [] /\ timer z = None)).
  { intros z Hsent Hin Ht Hprog. unfold progress_shape. rewrite Hsent.
    destruct Hshape as [(Hnil & Hp0)|(Hne & Hp)].
    - destruct Hin as [Hin|Hin]; [|contradiction].
      destruct Ht as [Ht|Ht]; [|contradiction].
      destruct Hprog as [Hprog|(Hc & _)]; [|contradiction].
      rewrite Hin, Ht, Hprog. split; [left; auto|auto].
    - split; [|intros E; contradiction].
      right. split; [exact Hne|].
      destruct Hprog as [->|(_ & H)]; assumption. }
  assert (Hsentne : forall z : Sys,
             sent z <> [] ->
             (progress (sess z) = 5 \/ progress (sess z) = 50
              \/ progress (sess z) = 100) ->
             progress_shape z
             /\ (sent z = [] -> inflight z = [] /\ timer z = None)).
  { intros z Hne Hp. split; [right; auto|intros E; contradiction]. }
  destruct e; simpl in Hs.
  - destruct ((0 <=? dt) && _); [|discriminate].
    injection Hs as <-. apply Hkeep; auto.
  - destruct (timer y) as [t|] eqn:Ht; [|discriminate].
    destruct (due t =? now y); [|discriminate].
    assert (Hne : sent y <> []).
    { intros E. destruct (Hfresh E) as [_ H]. discriminate. }
    destruct (toString (owner t)); injection Hs as <-.
    + apply Hsentne; [apply app_not_nil|].
      destruct Hshape as [(E & _)|(_ & Hp)]; [contradiction|exact Hp].
    + apply Hkeep; [now rewrite render_sent|now right|now right|].
      left. now rewrite render_progress.
  - destruct (take_request n (inflight y)) as [[r rest]|] eqn:Htk;
      [|discriminate].
    assert (Hne : sent y <> []).
    { intros E. destruct (Hfresh E) as [H _]. rewrite H in Htk.
      discriminate. }
    destruct (kind r); try discriminate.
    injection Hs as <-.
    apply Hkeep; [now rewrite render_sent|now right|now right|].
    rewrite render_progress. change (sess (settle rest y)) with (sess y).
    destruct (poll_callback_effect (apiFetch o) (sess y))
      as [(_ & _ & [H|H])|(_ & _ & [H|(H & _)])]; auto.
  - destruct (take_request n (inflight y)) as [[r rest]|] eqn:Htk;
      [|discriminate].
    assert (Hne : sent y <> []).
    { intros E. destruct (Hfresh E) as [H _]. rewrite H in Htk.
      discriminate. }
    destruct (kind r); try discriminate; injection Hs as <-;
      (apply Hkeep; [now rewrite render_sent|now right|now right|]);
      left; rewrite render_progress;
      change (sess (settle rest y)) with (sess y);
      [apply (proj1 (submit_resume_progress o (sess y)))
      |apply (proj2 (submit_resume_progress o (sess y)))].
  - destruct (unmounted y || isLoading (sess y)); [discriminate|].
    destruct (url_blocked imageUrl); injection Hs as <-; [now split|].
    apply Hsentne; unfold send; [cbn [sent]; apply app_not_nil|].
    cbn [sess]. rewrite render_progress. now left.
  - destruct (unmounted y || isLoading (sess y)); [discriminate|].
    destruct file as [f|]; simpl in Hs; injection Hs as <-; [|now split].
    apply Hsentne; unfold send; [cbn [sent]; apply app_not_nil|].
    cbn [sess]. rewrite render_progress. now left.
Qed.

(** X6: in every reachable state progress is 0, 5, 50 or 100, and it is 0
    exactly as long as no request has ever been sent: the 0 that
    [resetState] writes is overwritten in the same batch and never shown
    once a submission was made. *)
Theorem progress_values :
  forall (y : Sys),
    reachable y ->
    (progress (sess y) = 0 \/ progress (sess y) = 5
     \/ progress (sess y) = 50 \/ progress (sess y) = 100)
    /\ (progress (sess y) = 0 <-> sent y = []).
Proof.
  intros y [evs Hr].
  assert (H : progress_shape y
              /\ (sent y = [] -> inflight y = [] /\ timer y = None)).
  { revert Hr.
    assert (H0 : progress_shape mounted
                 /\ (sent mounted = [] ->
                     inflight mounted = [] /\ timer mounted = None)).
    { split; [left; split; reflexivity|auto]. }
    revert H0. generalize mounted as y0. revert y.
    induction evs as [|e evs IH]; intros y y0 H0 Hr; simpl in Hr.
    - now injection Hr as <-.
    - destruct (step e y0) as [y1|] eqn:Hs; [|discriminate].
      eapply IH; [|exact Hr]. eapply step_progress_shape; eauto. }
  destruct H as [[(Hnil & Hp)|(Hne & Hp)] _].
  - split; [now left|]. split; auto.
  - split; [right; exact Hp|].
    split; [intros E; lia|intros E; contradiction].
Qed.

(** After job123's submission and first ticks, progress is 50. *)
Lemma progress_values_witness :
  (progress (sess before_completion) = 0
   \/ progress (sess before_completion) = 5
   \/ progress (sess before_completion) = 50
   \/ progress (sess before_completion) = 100)
  /\ (progress (sess before_completion) = 0 <-> sent before_completion = []).
Proof.
  apply (progress_values before_completion).
  exists (submitted_job123 ++ polling_job123). vm_compute. reflexivity.
Defined.

(* ================================================================== *)
(** ** Progress under one job *)
(* ================================================================== *)










(* ================================================================== *)
(** ** Submissions *)
(* ================================================================== *)

(** A submission response that hands out an id makes both handlers store
    it with the [pending] placeholder. *)
Lemma resume_assigned (o : FetchOutcome) (id : value) :
  assigned_id o = Some id ->
  handleSubmitUrl_resume o = [setJobId id; setResult pendingPlaceholder]
  /\ handleSubmitFile_resume o = [setJobId id; setResult pendingPlaceholder].
Proof.
  unfold assigned_id, handleSubmitUrl_resume, handleSubmitFile_resume, apiFetch.
  destruct o as [|status [body|]]; try discriminate.
  destruct (ok status); simpl; [|discriminate].
  destruct (get body "data") as [d|]; [|discriminate].
  intros ->. auto.
Qed.

(** Any other submission response sends both handlers into their [catch]
    block, with the same thrown value up to the wrapper constant each path
    uses for a falsy [message]. *)
Lemma resume_unassigned (o : FetchOutcome) :
  assigned_id o = None ->
  exists eu ef,
    handleSubmitUrl_resume o = submitUrl_catch eu
    /\ handleSubmitFile_resume o = submitFile_catch ef
    /\ ((is_ApiError eu = false /\ is_ApiError ef = false)
        \/ eu = ef
        \/ (exists st d, eu = ApiError "An API error occurred" st d
                         /\ ef = ApiError "File upload failed" st d)).
Proof.
  unfold assigned_id, handleSubmitUrl_resume, handleSubmitFile_resume, apiFetch.
  destruct o as [|status [body|]].
  - intros _. exists TypeError, TypeError. auto.
  - destruct (ok status); simpl.
    + destruct (get body "data") as [d|]; simpl.
      * intros ->. exists TypeError, TypeError. auto.
      * intros _. exists TypeError, TypeError. auto.
    + intros _. destruct (get body "message") as [m|]; simpl.
      * unfold or_else. destruct (truthy m).
        -- eexists _, _. split; [reflexivity|]. split; [reflexivity|].
           right. left. reflexivity.
        -- eexists _, _. split; [reflexivity|]. split; [reflexivity|].
           right. right. unfold newApiError. simpl. eauto.
      * exists TypeError, TypeError. auto.
  - intros _. exists SyntaxError, SyntaxError. auto.
Qed.

(** X7: the file path, which calls [fetch] itself, treats every response
    the way the URL path does through [apiFetch]: both store the same job
    id and placeholder or both fail, they leave [jobId], [result],
    [isLoading] and [progress] equal, and their error messages are equal
    except for the two pairs of constants (the context fallbacks, and the
    wrapper constants "An API error occurred" / "File upload failed"). *)
Theorem submission_paths_agree :
  forall (o : FetchOutcome) (s : Session),
    let su := commit (handleSubmitUrl_resume o) s in
    let sf := commit (handleSubmitFile_resume o) s in
    jobId su = jobId sf /\ result su = result sf
    /\ isLoading su = isLoading sf /\ progress su = progress sf
    /\ (error su = error sf
        \/ (error su = Some urlFallback /\ error sf = Some fileFallback)
        \/ (error su = Some "An API error occurred"
            /\ error sf = Some "File upload failed")).
Proof.
  intros o s. cbv zeta.
  destruct (assigned_id o) as [id|] eqn:Ha.
  - destruct (resume_assigned o id Ha) as [-> ->]. repeat split. now left.
  - destruct (resume_unassigned o Ha) as (eu & ef & -> & -> & Hrel).
    repeat split.
    destruct Hrel as [(Hu & Hf)|[->|(st & d & -> & ->)]].
    + right. left.
      destruct eu, ef; try discriminate; split; reflexivity.
    + destruct ef; simpl; auto.
    + right. right. split; reflexivity.
Qed.

(** Waiting one period on a fresh interval and letting it fire issues one
    status request for its owner. *)
Lemma first_tick (y : Sys) (j : value) :
  timer y = Some {| owner := j; due := now y + period |} ->
  toString j <> None ->
  exists y'',
    run [Wait period; Fire] y = Some y''
    /\ inflight y''
       = inflight y ++ [ {| rid := List.length (sent y);
                            kind := StatusReq j;
                            issued := now y + period |} ].
Proof.
  intros Htimer Hstr.
  destruct (toString j) as [ep|] eqn:Hep; [|contradiction].
  assert (Hw : step (Wait period) y
               = Some {| sess := sess y; now := now y + period;
                         timer := timer y; inflight := inflight y;
                         sent := sent y; unmounted := unmounted y |}).
  { cbn [step]. rewrite Htimer. cbn [due]. rewrite Z.leb_refl.
    reflexivity. }
  cbn [run]. rewrite Hw. cbn [step timer]. rewrite Htimer.
  cbn [due owner now]. rewrite Z.eqb_refl, Hep.
  eexists. split; reflexivity.
Qed.

Lemma take_submit_step (n : nat) (o : FetchOutcome) (y : Sys)
      (r : Request) (rest : list Request) :
  take_request n (inflight y) = Some (r, rest) ->
  is_status r = false ->
  exists acts,
    step (SubmitResponse n o) y = Some (render acts (settle rest y))
    /\ (acts = handleSubmitUrl_resume o \/ acts = handleSubmitFile_resume o).
Proof.
  intros Ht Hk. simpl. rewrite Ht. unfold is_status in Hk.
  destruct (kind r); [discriminate| |]; eexists; split; eauto.
Qed.

(** X8: a submission response that hands out a truthy job id starts the
    polling of that id: [jobId] is the id, [result] the [pending]
    placeholder, the other cells are untouched, and an interval for the id
    is created whose first tick, exactly 3000 ms later, issues the first
    status request for it (when the id has a string form). *)
Theorem submission_success_starts_polling :
  forall (y : Sys) (n : nat) (o : FetchOutcome) (r : Request)
         (rest : list Request) (id : value),
    take_request n (inflight y) = Some (r, rest) ->
    is_status r = false ->
    assigned_id o = Some id ->
    truthy id = true ->
    exists y',
      step (SubmitResponse n o) y = Some y'
      /\ sess y' = {| jobId := id; result := pendingPlaceholder;
                      isLoading := isLoading (sess y);
                      error := error (sess y);
                      progress := progress (sess y) |}
      /\ timer y' = Some {| owner := id; due := now y + period |}
      /\ (toString id <> None ->
          exists y'',
            run [Wait period; Fire] y' = Some y''
            /\ inflight y''
               = rest ++ [ {| rid := List.length (sent y);
                              kind := StatusReq id;
                              issued := now y + period |} ]).
Proof.
  intros y n o r rest id Ht Hk Ha Htr.
  destruct (take_submit_step n o y r rest Ht Hk) as (acts & Hs & Hacts).
  destruct (resume_assigned o id Ha) as [Eu Ef].
  assert (E : acts = [setJobId id; setResult pendingPlaceholder])
    by (destruct Hacts; congruence).
  subst acts.
  assert (Hy' : render [setJobId id; setResult pendingPlaceholder]
                       (settle rest y)
                = {| sess := {| jobId := id; result := pendingPlaceholder;
                                isLoading := isLoading (sess y);
                                error := error (sess y);
                                progress := progress (sess y) |};
                     now := now y;
                     timer := Some {| owner := id; due := now y + period |};
                     inflight := rest; sent := sent y;
                     unmounted := unmounted y |}).
  { rewrite render_ok by reflexivity.
    unfold deps_changed, same_dep. simpl. rewrite orb_true_r.
    unfold polling_effect. simpl. rewrite Htr. reflexivity. }
  rewrite Hy' in Hs. eexists. split; [exact Hs|].
  split; [reflexivity|]. split; [reflexivity|].
  intros Hstr.
  match type of Hs with
  | _ = Some ?z =>
      destruct (first_tick z id eq_refl Hstr) as (y'' & Hrun & Hin)
  end.
  exists y''. split; [exact Hrun|exact Hin].
Qed.

(** job123's submission response. *)
Lemma submission_success_starts_polling_witness :
  exists y',
    step (SubmitResponse 0 (created "job123"))
         {| sess := {| jobId := VNull; result := VNull; isLoading := true;
                       error := None; progress := 5 |};
            now := 100; timer := None;
            inflight := [ {| rid := 0;
                             kind := UrlSubmitReq "https://x/y.png" "es";
                             issued := 0 |} ];
            sent := [ {| rid := 0;
                         kind := UrlSubmitReq "https://x/y.png" "es";
                         issued := 0 |} ];
            unmounted := false |}
    = Some y'
    /\ sess y' = {| jobId := VStr "job123"; result := pendingPlaceholder;
                    isLoading := true; error := None; progress := 5 |}
    /\ timer y' = Some {| owner := VStr "job123"; due := 100 + period |}
    /\ (toString (VStr "job123") <> None ->
        exists y'',
          run [Wait period; Fire] y' = Some y''
          /\ inflight y''
             = [] ++ [ {| rid := 1; kind := StatusReq (VStr "job123");
                          issued := 100 + period |} ]).
Proof.
  apply (submission_success_starts_polling
           {| sess := {| jobId := VNull; result := VNull; isLoading := true;
                         error := None; progress := 5 |};
              now := 100; timer := None;
              inflight := [ {| rid := 0;
                               kind := UrlSubmitReq "https://x/y.png" "es";
                               issued := 0 |} ];
              sent := [ {| rid := 0;
                           kind := UrlSubmitReq "https://x/y.png" "es";
                           issued := 0 |} ];
              unmounted := false |}
           0%nat (created "job123")
           {| rid := 0; kind := UrlSubmitReq "https://x/y.png" "es";
              issued := 0 |}
           [] (VStr "job123")); reflexivity.
Defined.

(** X9: a submission response that hands out no job id (a rejected fetch,
    a body that is not JSON, a non-2xx status, a body without [data]) sets
    an error message and clears [isLoading]; [jobId], [result], [progress]
    and the interval are as before, and no request is issued: the failed
    submission is not retried and tracks no job. *)
Theorem submission_failure_tracks_nothing :
  forall (y : Sys) (n : nat) (o : FetchOutcome) (r : Request)
         (rest : list Request),
    take_request n (inflight y) = Some (r, rest) ->
    is_status r = false ->
    assigned_id o = None ->
    exists y' m,
      step (SubmitResponse n o) y = Some y'
      /\ sess y' = {| jobId := jobId (sess y); result := result (sess y);
                      isLoading := false; error := Some m;
                      progress := progress (sess y) |}
      /\ timer y' = timer y
      /\ inflight y' = rest
      /\ sent y' = sent y.
Proof.
  intros y n o r rest Ht Hk Ha.
  destruct (take_submit_step n o y r rest Ht Hk) as (acts & Hs & Hacts).
  destruct (resume_unassigned o Ha) as (eu & ef & Eu & Ef & _).
  destruct Hacts as [->| ->]; [rewrite Eu in Hs|rewrite Ef in Hs];
    eexists; eexists; (split; [exact Hs|]);
    rewrite render_ok by (apply render_quiet; reflexivity);
    rewrite deps_changed_untouched by reflexivity;
    repeat split.
Qed.

(** The server answers the submission with 503 and no JSON body. *)
Lemma submission_failure_tracks_nothing_witness :
  exists y' m,
    step (SubmitResponse 0 (HttpResponse 503 None))
         {| sess := {| jobId := VNull; result := VNull; isLoading := true;
                       error := None; progress := 5 |};
            now := 100; timer := None;
            inflight := [ {| rid := 0;
                             kind := UrlSubmitReq "https://x/y.png" "es";
                             issued := 0 |} ];
            sent := [ {| rid := 0;
                         kind := UrlSubmitReq "https://x/y.png" "es";
                         issued := 0 |} ];
            unmounted := false |}
    = Some y'
    /\ sess y' = {| jobId := VNull; result := VNull;
                    isLoading := false; error := Some m;
                    progress := 5 |}
    /\ timer y' = None
    /\ inflight y' = []
    /\ sent y' = [ {| rid := 0;
                      kind := UrlSubmitReq "https://x/y.png" "es";
                      issued := 0 |} ].
Proof.
  apply (submission_failure_tracks_nothing
           {| sess := {| jobId := VNull; result := VNull; isLoading := true;
                         error := None; progress := 5 |};
              now := 100; timer := None;
              inflight := [ {| rid := 0;
                               kind := UrlSubmitReq "https://x/y.png" "es";
                               issued := 0 |} ];
              sent := [ {| rid := 0;
                           kind := UrlSubmitReq "https://x/y.png" "es";
                           issued := 0 |} ];
              unmounted := false |}
           0%nat (HttpResponse 503 None)
           {| rid := 0; kind := UrlSubmitReq "https://x/y.png" "es";
              issued := 0 |}
           []); reflexivity.
Defined.

Lemma start_step (e : Event) (y y' : Sys) :
  starts_submission e = true ->
  step e y = Some y' ->
  exists k,
    y' = send k (render handleSubmitUrl_start y) /\ (forall j, k <> StatusReq j).
Proof.
  intros He Hs. destruct e; try discriminate; simpl in Hs, He.
  - destruct (unmounted y || isLoading (sess y)); [discriminate|].
    destruct (url_blocked imageUrl); [discriminate|].
    injection Hs as <-. eexists. split; [reflexivity|discriminate].
  - destruct file as [f|]; [|discriminate].
    destruct (unmounted y || isLoading (sess y)); [discriminate|].
    simpl in Hs. injection Hs as <-.
    eexists. split; [reflexivity|discriminate].
Qed.

(** X10: starting a submission (on either form) resets the session to the
    busy state, stops the poller of whatever job was tracked, and issues
    exactly one request, the submission itself; from then on no status
    request is issued for any job id until a submission response hands
    that id out. *)
Theorem submission_start_stops_poller :
  forall (e : Event) (y y' : Sys),
    reachable y ->
    starts_submission e = true ->
    step e y = Some y' ->
    sess y' = {| jobId := VNull; result := VNull; isLoading := true;
                 error := None; progress := 5 |}
    /\ timer y' = None
    /\ (exists r, sent y' = sent y ++ [r]
                  /\ inflight y' = inflight y ++ [r]
                  /\ is_status r = false)
    /\ (forall j evs y'',
           never_reassigned j evs ->
           run evs y' = Some y'' ->
           forall q, In q (sent y'') -> kind q = StatusReq j ->
                     In q (sent y')).
Proof.
  intros e y y' Hreach He Hs.
  apply reachable_timer_bound in Hreach.
  destruct (start_step e y y' He Hs) as (k & -> & Hk).
  assert (Htimer : timer (send k (render handleSubmitUrl_start y)) = None).
  { change (timer (send k (render handleSubmitUrl_start y)))
      with (timer (render handleSubmitUrl_start y)).
    apply render_no_timer; [exact Hreach|reflexivity]. }
  split; [reflexivity|]. split; [exact Htimer|]. split.
  - eexists. split; [reflexivity|]. split; [reflexivity|].
    unfold is_status. simpl. destruct k; try reflexivity.
    exfalso. now apply (Hk jid).
  - intros j evs y'' Hn Hr. eapply run_detached; [|exact Hn|exact Hr].
    split.
    + intros t Ht. rewrite Htimer in Ht. discriminate.
    + simpl. discriminate.
Qed.

(** The URL form is submitted right after mounting. *)
Lemma submission_start_stops_poller_witness :
  timer (send (UrlSubmitReq "https://x/y.png" "es")
              (render handleSubmitUrl_start mounted)) = None.
Proof.
  apply (submission_start_stops_poller
           (SubmitUrl (accepted "https://x/y.png") "es") mounted
           (send (UrlSubmitReq "https://x/y.png" "es")
                 (render handleSubmitUrl_start mounted))).
  - exists []. reflexivity.
  - reflexivity.
  - reflexivity.
Defined.

(* ================================================================== *)
(** ** The error message and the forms *)
(* ================================================================== *)

Lemma poll_callback_error (r : Outcome value) (s : Session) :
  error (commit (poll_callback r) s) = error s
  \/ (exists m, error (commit (poll_callback r) s) = Some m
                /\ isLoading (commit (poll_callback r) s) = false).
Proof.
  destruct r as [data|e]; simpl; [|right; eauto].
  unfold commit. simpl.
  destruct (get data "status") as [st|]; simpl; [|right; eauto].
  destruct (is_str st "processing"),
    (is_str st "completed" || is_str st "failed"); simpl; auto.
Qed.

Lemma submit_resume_error (o : FetchOutcome) (s : Session) :
  (error (commit (handleSubmitUrl_resume o) s) = error s
   \/ (exists m, error (commit (handleSubmitUrl_resume o) s) = Some m
                 /\ isLoading (commit (handleSubmitUrl_resume o) s) = false))
  /\ (error (commit (handleSubmitFile_resume o) s) = error s
      \/ (exists m, error (commit (handleSubmitFile_resume o) s) = Some m
                    /\ isLoading (commit (handleSubmitFile_resume o) s)
                       = false)).
Proof.
  destruct (assigned_id o) as [id|] eqn:Ha.
  - destruct (resume_assigned o id Ha) as [-> ->].
    split; left; reflexivity.
  - destruct (resume_unassigned o Ha) as (eu & ef & -> & -> & _).
    split; right; eexists; split; reflexivity.
Qed.

(** X11: how the error message changes in one step: it stays as it is, or
    it is cleared by the start of a submission (and by nothing else), or a
    handler sets a message -- and whenever a message is set, [isLoading]
    is false afterwards, so the forms are enabled for the next attempt. *)
Theorem error_changes :
  forall (e : Event) (y y' : Sys),
    step e y = Some y' ->
    (starts_submission e = true -> error (sess y') = None)
    /\ (starts_submission e = false ->
        error (sess y') = error (sess y)
        \/ (exists m, error (sess y') = Some m
                      /\ isLoading (sess y') = false)).
Proof.
  intros e y y' Hs. split.
  - intros He. destruct (start_step e y y' He Hs) as (k & -> & _).
    unfold send. cbn [sess]. now rewrite render_error.
  - intros He. destruct e; simpl in Hs.
    + destruct ((0 <=? dt) && _); [|discriminate].
      injection Hs as <-. now left.
    + destruct (timer y) as [t|]; [|discriminate].
      destruct (due t =? now y); [|discriminate].
      destruct (toString (owner t)); injection Hs as <-.
      * now left.
      * right. rewrite render_error, render_isLoading.
        eexists. split; reflexivity.
    + destruct (take_request n (inflight y)) as [[r rest]|]; [|discriminate].
      destruct (kind r); try discriminate.
      injection Hs as <-. rewrite render_error, render_isLoading.
      apply (poll_callback_error (apiFetch o) (sess y)).
    + destruct (take_request n (inflight y)) as [[r rest]|]; [|discriminate].
      destruct (kind r); try discriminate; injection Hs as <-;
        rewrite render_error, render_isLoading.
      * apply (proj1 (submit_resume_error o (sess y))).
      * apply (proj2 (submit_resume_error o (sess y))).
    + destruct (unmounted y || isLoading (sess y)); [discriminate|].
      simpl in He. destruct (url_blocked imageUrl); [|discriminate].
      injection Hs as <-. now left.
    + destruct file as [f|]; [discriminate|].
      destruct (unmounted y || isLoading (sess y)); [discriminate|].
      injection Hs as <-. now left.
Qed.

(** job123's second status response reports completion: the error cell
    is left alone. *)
Lemma error_changes_witness :
  error (sess after_completion) = error (sess before_completion)
  \/ (exists m, error (sess after_completion) = Some m
                /\ isLoading (sess after_completion) = false).
Proof.
  apply (proj2 (error_changes (PollResponse 2 completedResponse)
                              before_completion after_completion eq_refl)).
  reflexivity.
Defined.

(** X12: in an execution in which every status response arrives within
    3000 ms, at most one request of any kind is outstanding, and whenever
    the forms are enabled ([isLoading] false) nothing is outstanding and no
    interval exists: a submission can only be started from an idle
    client. *)
Theorem forms_enabled_only_when_idle :
  forall (evs : list Event) (y : Sys),
    Forall (fun x => prompt x = true) (states evs mounted) ->
    run evs mounted = Some y ->
    (List.length (inflight y) <= 1)%nat
    /\ (isLoading (sess y) = false -> inflight y = [] /\ timer y = None)
    /\ (forall e y', starts_submission e = true -> step e y = Some y' ->
                     exists r, inflight y' = [r] /\ is_status r = false).
Proof.
  intros evs y Hall Hr.
  pose proof (calm_run evs mounted y calm_mounted Hall Hr) as Hc.
  split; [|split].
  - destruct (calm_cases y Hc) as [H|[(r & H & _)|(r & j & t & H & _)]];
      rewrite H; simpl; lia.
  - intros Hl. destruct (idle_when_enabled y Hc Hl). auto.
  - intros e y' He Hs.
    assert (Hl : isLoading (sess y) = false).
    { destruct e; try discriminate; simpl in Hs;
        destruct (unmounted y || isLoading (sess y)) eqn:Hen;
        try discriminate; now apply orb_false_iff in Hen. }
    destruct (idle_when_enabled y Hc Hl) as [_ Hi].
    destruct (start_step e y y' He Hs) as (k & -> & Hk).
    eexists.
    split; [unfold send; cbn [inflight];
            rewrite (render_inflight_nil _ y Hi); reflexivity|].
    unfold is_status. simpl. destruct k; try reflexivity.
    exfalso. now apply (Hk jid).
Qed.

(** job123's run, up to the arrival of its second status response. *)
Lemma forms_enabled_only_when_idle_witness :
  (List.length (inflight before_completion) <= 1)%nat.
Proof.
  apply (forms_enabled_only_when_idle
           (submitted_job123 ++ polling_job123) before_completion).
  - vm_compute. repeat constructor.
  - reflexivity.
Defined.

(** With [isLoading] set, no interval and nothing outstanding, only time
    can pass. *)
Lemma frozen_step (e : Event) (y y' : Sys) :
  isLoading (sess y) = true -> timer y = None -> inflight y = [] ->
  step e y = Some y' ->
  sess y' = sess y /\ timer y' = None /\ inflight y' = []
  /\ sent y' = sent y.
Proof.
  intros Hl Ht Hi Hs. destruct e; simpl in Hs.
  - destruct ((0 <=? dt) && _); [|discriminate].
    injection Hs as <-. auto.
  - rewrite Ht in Hs. discriminate.
  - rewrite Hi in Hs. discriminate.
  - rewrite Hi in Hs. discriminate.
  - rewrite Hl, orb_true_r in Hs. discriminate.
  - rewrite Hl, orb_true_r in Hs. discriminate.
Qed.

Lemma frozen_run (evs : list Event) (y y' : Sys) :
  isLoading (sess y) = true -> timer y = None -> inflight y = [] ->
  run evs y = Some y' ->
  sess y' = sess y /\ timer y' = None /\ inflight y' = []
  /\ sent y' = sent y.
Proof.
  revert y. induction evs as [|e evs IH]; intros y Hl Ht Hi Hr; simpl in Hr.
  - injection Hr as <-. auto.
  - destruct (step e y) as [y1|] eqn:Hs; [|discriminate].
    destruct (frozen_step e y y1 Hl Ht Hi Hs) as (Es & Et & Ei & Esent).
    destruct (IH y1) as (Es' & Et' & Ei' & Esent'); try assumption.
    + now rewrite Es.
    + repeat split; congruence.
Qed.

(** X13: a 2xx submission response whose [digitizationId] is falsy
    (absent, [null], empty) leaves the client busy for good: [isLoading]
    stays true, no interval is created and, status responses being
    prompt, nothing is outstanding, so no event but the passing of time can
    happen any more -- the session never changes again and no request is
    ever sent. *)
Theorem falsy_job_id_freezes_client :
  forall (evs : list Event) (y y' : Sys) (n : nat) (o : FetchOutcome)
         (id : value),
    Forall (fun x => prompt x = true) (states evs mounted) ->
    run evs mounted = Some y ->
    step (SubmitResponse n o) y = Some y' ->
    assigned_id o = Some id ->
    truthy id = false ->
    isLoading (sess y') = true
    /\ jobId (sess y') = id
    /\ timer y' = None
    /\ inflight y' = []
    /\ (forall evs' y'',
           run evs' y' = Some y'' ->
           sess y'' = sess y' /\ timer y'' = None /\ sent y'' = sent y').
Proof.
  intros evs y y' n o id Hall Hr Hs Ha Hf.
  pose proof (calm_run evs mounted y calm_mounted Hall Hr) as Hc.
  destruct (resume_assigned o id Ha) as [Eu Ef].
  assert (Hshape : exists r, inflight y = [r] /\ is_status r = false
                             /\ isLoading (sess y) = true).
  { simpl in Hs.
    destruct (calm_cases y Hc)
      as [H|[(r & H & Hk & _ & Hl)|(r & j & t & H & Hk & _)]].
    - rewrite H in Hs. discriminate.
    - eauto.
    - rewrite H in Hs. simpl in Hs.
      destruct (Nat.eqb (rid r) n); [|discriminate].
      rewrite Hk in Hs. discriminate. }
  destruct Hshape as (r & Hi & Hk & Hl).
  assert (Hy' : y' = render [setJobId id; setResult pendingPlaceholder]
                            (settle [] y)).
  { simpl in Hs. rewrite Hi in Hs. simpl in Hs.
    destruct (Nat.eqb (rid r) n); [|discriminate].
    unfold is_status in Hk.
    destruct (kind r); [discriminate| |]; injection Hs as <-; congruence. }
  rewrite render_ok in Hy' by reflexivity.
  assert (Htimer : timer y' = None).
  { rewrite Hy'. cbn [timer]. unfold deps_changed, same_dep.
    simpl. rewrite orb_true_r. unfold polling_effect. simpl.
    now rewrite Hf. }
  assert (Hload : isLoading (sess y') = true) by (rewrite Hy'; exact Hl).
  assert (Hin : inflight y' = []) by (rewrite Hy'; reflexivity).
  split; [exact Hload|]. split; [rewrite Hy'; reflexivity|].
  split; [exact Htimer|]. split; [exact Hin|].
  intros evs' y'' Hr'.
  destruct (frozen_run evs' y' y'' Hload Htimer Hin Hr') as (E1 & E2 & _ & E4).
  auto.
Qed.

(** The server answers the submission with 200 and [{data: {}}]. *)
Lemma falsy_job_id_freezes_client_witness :
  isLoading (sess frozen_example) = true
  /\ jobId (sess frozen_example) = VUndefined
  /\ timer frozen_example = None
  /\ inflight frozen_example = []
  /\ (forall evs' y'',
         run evs' frozen_example = Some y'' ->
         sess y'' = sess frozen_example /\ timer y'' = None
         /\ sent y'' = sent frozen_example).
Proof.
  apply (falsy_job_id_freezes_client
           [SubmitUrl (accepted "https://x/y.png") "es"; Wait 100]
           submitting_example frozen_example 0%nat
           created_without_id VUndefined).
  - vm_compute. repeat constructor.
  - reflexivity.
  - reflexivity.
  - reflexivity.
  - reflexivity.
Defined.

(* ================================================================== *)
(** ** A status response without a payload *)
(* ================================================================== *)

(** X14: a 2xx status response whose [data] is absent or [null] ends the
    job like a failed fetch (poll fallback message, [isLoading] false, no
    interval), but only after [setResult] has run: the last snapshot is
    replaced by [undefined] or [null]; progress keeps its value. *)
Theorem tick_without_payload :
  forall (y : Sys) (n : nat) (o : FetchOutcome) (r : Request)
         (rest : list Request) (j data : value),
    reachable y ->
    take_request n (inflight y) = Some (r, rest) ->
    kind r = StatusReq j ->
    apiFetch o = Return data ->
    get data "status" = None ->
    (data = VUndefined \/ data = VNull)
    /\ exists y',
        step (PollResponse n o) y = Some y'
        /\ sess y' = {| jobId := VNull; result := data; isLoading := false;
                        error := Some pollFallback;
                        progress := progress (sess y) |}
        /\ timer y' = None.
Proof.
  intros y n o r rest j data Hreach Ht Hk Ho Hst.
  apply reachable_timer_bound in Hreach.
  split; [destruct data; simpl in Hst; try discriminate; auto;
          destruct (lookup "status" fields); discriminate|].
  exists (render (poll_callback (apiFetch o)) (settle rest y)).
  split; [eapply take_request_step; eauto|].
  rewrite Ho.
  assert (E : poll_callback (Return data)
              = setResult data :: poll_catch TypeError).
  { unfold poll_callback. now rewrite Hst. }
  rewrite E. split; [now rewrite render_sess_null|].
  apply render_no_timer; [exact Hreach|].
  now rewrite render_sess_null.
Qed.

(** job123's second status request is answered 200 with the body [{}]. *)
Lemma tick_without_payload_witness :
  (VUndefined = VUndefined \/ VUndefined = VNull)
  /\ exists y',
      step (PollResponse 2 (HttpResponse 200 (Some (VObj []))))
           before_completion = Some y'
      /\ sess y' = {| jobId := VNull; result := VUndefined;
                      isLoading := false; error := Some pollFallback;
                      progress := progress (sess before_completion) |}
      /\ timer y' = None.
Proof.
  apply (tick_without_payload before_completion 2
           (HttpResponse 200 (Some (VObj [])))
           {| rid := 2; kind := StatusReq (VStr "job123"); issued := 6300 |}
           [] (VStr "job123") VUndefined).
  - exists (submitted_job123 ++ polling_job123). vm_compute. reflexivity.
  - reflexivity.
  - reflexivity.
  - reflexivity.
  - reflexivity.
Defined.

(* ================================================================== *)
(** ** A payload the page cannot display *)
(* ================================================================== *)










(* ================================================================== *)
(** ** What the page shows *)
(* ================================================================== *)

(** X16: what the page shows after a tick with a terminal payload that
    the result section can display (its status, texts and failure reason
    are no objects): Home stays mounted, the result section is rendered
    with the payload's status, the progress bar at 100 and the forms
    enabled again; non-empty recognized and translated texts of the
    payload are shown as they are; the failure block appears exactly for
    status [failed], with the payload's truthy [failureReason] or else
    "An unknown error occurred.". *)
Theorem terminal_tick_view :
  forall (y : Sys) (n : nat) (o : FetchOutcome) (r : Request)
         (rest : list Request) (j data : value),
    take_request n (inflight y) = Some (r, rest) ->
    kind r = StatusReq j ->
    apiFetch o = Return data ->
    terminal_payload data ->
    result_renders data = true ->
    exists y' card,
      step (PollResponse n o) y = Some y'
      /\ unmounted y' = unmounted y
      /\ isLoading (sess y') = false
      /\ resultCard (sess y') = Some card
      /\ progressValue card = 100
      /\ get data "status" = Some (statusText card)
      /\ renderable (statusText card) = true
      /\ (forall txt, get data "recognizedText" = Some (VStr txt) ->
                      txt <> "" -> recognizedBlock card = Some (VStr txt))
      /\ (forall txt, get data "translatedText" = Some (VStr txt) ->
                      txt <> "" -> translatedBlock card = Some (VStr txt))
      /\ (get data "status" = Some (VStr "completed") ->
          failureBlock card = None)
      /\ (get data "status" = Some (VStr "failed") ->
          failureBlock card
          = Some (or_else (opt_get data "failureReason")
                          (VStr "An unknown error occurred."))
          /\ renderable (or_else (opt_get data "failureReason")
                                 (VStr "An unknown error occurred."))
             = true).
Proof.
  intros y n o r rest j data Ht Hk Ho Hterm Hrend.
  destruct (terminal_payload_flag data Hterm) as (st & Hst & Hp & Hc).
  assert (Hobj : truthy data = true).
  { destruct Hterm as [H|H]; apply get_string_is_object in H as [f ->];
      reflexivity. }
  assert (Hacts : poll_callback (Return data)
                  = [setResult data; setProgress 100; setJobId VNull;
                     setIsLoading false]).
  { unfold poll_callback. now rewrite Hst, Hp, Hc. }
  assert (Hy' : exists t,
             render (poll_callback (Return data)) (settle rest y)
             = {| sess := {| jobId := VNull; result := data;
                             isLoading := false; error := error (sess y);
                             progress := 100 |};
                  now := now y; timer := t; inflight := rest;
                  sent := sent y; unmounted := unmounted y |}).
  { rewrite Hacts. rewrite render_ok by (now apply render_renders).
    eexists. reflexivity. }
  destruct Hy' as (t & Hy').
  exists (render (poll_callback (apiFetch o)) (settle rest y)). eexists.
  split; [eapply take_request_step; eauto|].
  rewrite Ho, Hy'.
  split; [reflexivity|]. split; [reflexivity|].
  split; [unfold resultCard; cbn [sess result isLoading];
          rewrite Hrend, Hobj; reflexivity|].
  cbn [progressValue statusText recognizedBlock translatedBlock failureBlock
       progress result isLoading].
  split; [reflexivity|].
  assert (Hstatus : truthy st = true).
  { destruct Hterm as [H|H]; rewrite H in Hst; injection Hst as <-;
      reflexivity. }
  assert (Hstr : or_else (opt_get data "status") (VStr "submitting...") = st).
  { unfold opt_get, or_else. now rewrite Hst, Hstatus. }
  split; [rewrite Hst; f_equal; symmetry; unfold opt_get, or_else;
          rewrite Hst, Hstatus; reflexivity|].
  split.
  { unfold opt_get, or_else. rewrite Hst, Hstatus.
    destruct Hterm as [H|H]; rewrite H in Hst; injection Hst as <-;
      reflexivity. }
  split; [|split; [|split]].
  - intros txt Hr Hne. unfold opt_get. rewrite Hr. simpl.
    destruct (String.eqb_spec txt "") as [->|_]; [contradiction|reflexivity].
  - intros txt Hr Hne. unfold opt_get. rewrite Hr. simpl.
    destruct (String.eqb_spec txt "") as [->|_]; [contradiction|reflexivity].
  - intros H. unfold opt_get. rewrite H. reflexivity.
  - intros H. split; [unfold opt_get at 1; rewrite H; reflexivity|].
    unfold result_renders in Hrend.
    apply andb_true_iff in Hrend as [_ Hfail].
    unfold opt_get at 1 in Hfail. rewrite H in Hfail. exact Hfail.
Qed.

(** job123 completes with both texts. *)
Lemma terminal_tick_view_witness :
  exists y' card,
    step (PollResponse 2 completedResponse) before_completion = Some y'
    /\ unmounted y' = unmounted before_completion
    /\ isLoading (sess y') = false
    /\ resultCard (sess y') = Some card
    /\ progressValue card = 100
    /\ get completedHola "status" = Some (statusText card)
    /\ renderable (statusText card) = true
    /\ (forall txt, get completedHola "recognizedText" = Some (VStr txt) ->
                    txt <> "" -> recognizedBlock card = Some (VStr txt))
    /\ (forall txt, get completedHola "translatedText" = Some (VStr txt) ->
                    txt <> "" -> translatedBlock card = Some (VStr txt))
    /\ (get completedHola "status" = Some (VStr "completed") ->
        failureBlock card = None)
    /\ (get completedHola "status" = Some (VStr "failed") ->
        failureBlock card
        = Some (or_else (opt_get completedHola "failureReason")
                        (VStr "An unknown error occurred."))
        /\ renderable (or_else (opt_get completedHola "failureReason")
                               (VStr "An unknown error occurred."))
           = true).
Proof.
  apply (terminal_tick_view before_completion 2 completedResponse
           {| rid := 2; kind := StatusReq (VStr "job123"); issued := 6300 |}
           [] (VStr "job123") completedHola).
  - reflexivity.
  - reflexivity.
  - reflexivity.
  - left. reflexivity.
  - reflexivity.
Defined.

(* ================================================================== *)
(** ** Where job ids come from, and how polling goes on *)
(* ================================================================== *)

(** X17: the only way [jobId] takes a new truthy value is a submission
    response handing that value out; every other event leaves [jobId] as
    it is or clears it.  In particular no status response, however late,
    can make the client track a job. *)
Theorem job_id_provenance :
  forall (e : Event) (y y' : Sys),
    step e y = Some y' ->
    jobId (sess y') = jobId (sess y)
    \/ jobId (sess y') = VNull
    \/ (exists n o, e = SubmitResponse n o
                    /\ assigned_id o = Some (jobId (sess y'))).
Proof.
  intros e y y' Hs. exact (step_jobId e y y' Hs).
Qed.

(** job123's completion clears the job id. *)
Lemma job_id_provenance_witness :
  jobId (sess after_completion) = jobId (sess before_completion)
  \/ jobId (sess after_completion) = VNull
  \/ (exists n o, PollResponse 2 completedResponse = SubmitResponse n o
                  /\ assigned_id o = Some (jobId (sess after_completion))).
Proof.
  apply (job_id_provenance (PollResponse 2 completedResponse)
                           before_completion after_completion).
  reflexivity.
Defined.

(** X18: a status response whose payload is an object with a non-terminal
    status that the result section can display, applied while a job id is
    active, keeps the job going: Home stays mounted, the payload becomes
    [result], [jobId], [isLoading] and [error] are untouched, and the next
    tick, 3000 ms after the response, issues the next status request for
    the same id (when the id has a string form). *)
Theorem tick_continues_polling :
  forall (y : Sys) (n : nat) (o : FetchOutcome) (r : Request)
         (rest : list Request) (j data : value),
    take_request n (inflight y) = Some (r, rest) ->
    kind r = StatusReq j ->
    apiFetch o = Return data ->
    is_ref data = true ->
    terminal data = false ->
    result_renders data = true ->
    truthy (jobId (sess y)) = true ->
    toString (jobId (sess y)) <> None ->
    exists y' y'',
      step (PollResponse n o) y = Some y'
      /\ unmounted y' = unmounted y
      /\ result (sess y') = data
      /\ jobId (sess y') = jobId (sess y)
      /\ isLoading (sess y') = isLoading (sess y)
      /\ error (sess y') = error (sess y)
      /\ run [Wait period; Fire] y' = Some y''
      /\ inflight y''
         = rest ++ [ {| rid := List.length (sent y);
                        kind := StatusReq (jobId (sess y));
                        issued := now y + period |} ].
Proof.
  intros y n o r rest j data Ht Hk Ho Hobj Hterm Hrend Hj Hstr.
  destruct (nonterminal_tick_render data (settle rest y)
              Hobj Hterm Hrend Hj)
    as (Hr & Hjob & Hl & He & Htimer & Hin & Hsent & Hu).
  assert (Htimer' : timer (render (poll_callback (Return data))
                                  (settle rest y))
                    = Some {| owner := jobId (sess y);
                              due := now (render (poll_callback (Return data))
                                                 (settle rest y))
                                     + period |})
    by (now rewrite render_now).
  destruct (first_tick (render (poll_callback (Return data)) (settle rest y))
              (jobId (sess y)) Htimer' Hstr) as (y'' & Hrun & Hin').
  rewrite Hin, Hsent, render_now in Hin'.
  exists (render (poll_callback (Return data)) (settle rest y)), y''.
  split; [rewrite <- Ho; eapply take_request_step; eauto|].
  split; [exact Hu|].
  split; [exact Hr|]. split; [exact Hjob|]. split; [exact Hl|].
  split; [exact He|]. split; [exact Hrun|exact Hin'].
Qed.

(** job123's first status response, [processing]. *)
Lemma tick_continues_polling_witness :
  exists y' y'',
    step (PollResponse 1 (statusOf "processing"))
         {| sess := sess after_submission; now := 3300;
            timer := Some {| owner := VStr "job123"; due := 6100 |};
            inflight := [ {| rid := 1; kind := StatusReq (VStr "job123");
                             issued := 3100 |} ];
            sent := sent after_submission
                    ++ [ {| rid := 1; kind := StatusReq (VStr "job123");
                            issued := 3100 |} ];
            unmounted := false |}
    = Some y'
    /\ unmounted y' = false
    /\ result (sess y') = VObj [("status", VStr "processing")]
    /\ jobId (sess y') = jobId (sess after_submission)
    /\ isLoading (sess y') = isLoading (sess after_submission)
    /\ error (sess y') = error (sess after_submission)
    /\ run [Wait period; Fire] y' = Some y''
    /\ inflight y''
       = [] ++ [ {| rid := 2; kind := StatusReq (VStr "job123");
                    issued := 3300 + period |} ].
Proof.
  apply (tick_continues_polling
           {| sess := sess after_submission; now := 3300;
              timer := Some {| owner := VStr "job123"; due := 6100 |};
              inflight := [ {| rid := 1; kind := StatusReq (VStr "job123");
                               issued := 3100 |} ];
              sent := sent after_submission
                      ++ [ {| rid := 1; kind := StatusReq (VStr "job123");
                              issued := 3100 |} ];
              unmounted := false |}
           1%nat (statusOf "processing")
           {| rid := 1; kind := StatusReq (VStr "job123"); issued := 3100 |}
           [] (VStr "job123") (VObj [("status", VStr "processing")]));
    try reflexivity.
  discriminate.
Defined.
